(** * The name service canister of [src/index.ts]

    A shallow embedding of the canister's update and query methods, and the
    properties of its specification.

    The canister keeps two [StableBTreeMap]s, [register] (name to owner) and
    [records] (name to attached data), and reads the caller from [ic.caller()].
    Here the two maps are finite maps, a method takes the state and the caller
    and returns the new state with its [Result], and the values the host
    supplies ([Principal], its [toString], [JSON.stringify]) are parameters of
    the development.

    The maps are modelled without the bounds given to [StableBTreeMap] (64 for
    a key, 1024 for a value, in bytes of the host's encoding): what an
    insertion beyond them does is the host's, and that a record is stored is
    stated only within them ([within_value_bound]). [register.keys()] lists every
    key once, in an order that is the host's: what is proved of [viewAllNames]
    does not depend on it. The [console] output is left out; the [try]/[catch]
    of the queries guards look-ups that do not throw here. *)

From Stdlib Require Import NArith Ascii String.
From stdpp Require Import gmap list strings.

Local Open Scope bool_scope.

(** ** JavaScript strings *)

(** A JavaScript string is a sequence of UTF-16 code units; [length], [trim]
    and a regular expression without the [u] flag all work on code units. *)
Abbreviation code_unit := N.
Abbreviation jsstring := (list code_unit).

(** A string literal of the source (all of them are ASCII). *)
Fixpoint js (s : string) : jsstring :=
  match s with
  | EmptyString => []
  | String c r => N_of_ascii c :: js r
  end.

(** ECMAScript [WhiteSpace] and [LineTerminator], the code units that
    [String.prototype.trim] strips: TAB, LF, VT, FF, CR, SP, NBSP, U+1680,
    U+2000..U+200A, U+2028, U+2029, U+202F, U+205F, U+3000 and U+FEFF. *)
Definition isWhiteSpace (c : code_unit) : bool :=
  ((9 <=? c) && (c <=? 13))%N
  || (c =? 32)%N || (c =? 160)%N || (c =? 5760)%N
  || ((8192 <=? c) && (c <=? 8202))%N
  || (c =? 8232)%N || (c =? 8233)%N || (c =? 8239)%N || (c =? 8287)%N
  || (c =? 12288)%N || (c =? 65279)%N.

Fixpoint trimStart (s : jsstring) : jsstring :=
  match s with
  | [] => []
  | c :: r => if isWhiteSpace c then trimStart r else s
  end.

Definition trimEnd (s : jsstring) : jsstring := rev (trimStart (rev s)).

(** [String.prototype.trim] *)
Definition trim (s : jsstring) : jsstring := trimEnd (trimStart s).

(** [ToBoolean] of a string: only the empty string is falsy. *)
Definition truthy_string (s : jsstring) : bool :=
  match s with [] => false | _ :: _ => true end.

(** ** azle's [Result] *)

(** [Result.Ok(v)] builds the object [{ Ok: v }] and [Result.Err(e)] the object
    [{ Err: e }]. *)
Inductive Result (T E : Type) : Type :=
| Ok (v : T)
| Err (e : E).
Arguments Ok {T E} v.
Arguments Err {T E} e.

(** [ToBoolean] of a [Result]: it is an object, and every object is truthy. *)
Definition truthy_Result {T E : Type} (r : Result T E) : bool :=
  match r with
  | Ok _ => true
  | Err _ => true
  end.


(** ** Validation *)

(** The character class [[A-Za-z0-9]]. *)
Definition isAlnum (c : code_unit) : bool :=
  ((65 <=? c) && (c <=? 90))%N
  || ((97 <=? c) && (c <=? 122))%N
  || ((48 <=? c) && (c <=? 57))%N.

(** [validNameRegex.test(str)] for [/^[A-Za-z0-9]+$/]: one or more characters,
    all of the class. *)
Definition validNameRegex_test (str : jsstring) : bool :=
  truthy_string str && forallb isAlnum str.

Definition INVALID_NAME_FORMAT : jsstring :=
  js "INVALID_NAME_FORMAT: Name can only contain letters and numbers from the English alphabet".

Definition isNameValid (str : jsstring) : Result jsstring jsstring :=
  if validNameRegex_test str then Ok str else Err INVALID_NAME_FORMAT.

(** ** Data model *)

(** [type Name = Record<{ btcAddress; ethAddress; twitterUsername }>] *)
Record Name : Type := mkName {
  btcAddress : jsstring;
  ethAddress : jsstring;
  twitterUsername : jsstring
}.

(** The three places where the service calls [JSON.stringify], each with the
    value it passes. *)
Inductive JSONArg : Type :=
| OfNameData (nameData : Name)
    (* [JSON.stringify(nameData)] *)
| OfPrevOrEmpty (prevData : option Name)
    (* [JSON.stringify(prevData.Some || {})], [prevData = records.get(name)] *)
| OfRemoved (prevData : option Name).
    (* [JSON.stringify(prevData)], [prevData = records.remove(name)] *)

(** ** Messages *)

(** The strings the methods return in [Result.Err], under the names the
    specification gives to the kinds of failure. *)
Module Msg.
(* registerName *)
Definition InvalidFormat : jsstring :=
  js " INVALID_NAME_FORMAT : Name can only contain letters and numbers from the English alphabet".
Definition InvalidLength : jsstring :=
  js " INVALID_NAME_LENGTH : Name must be between 2 and 16 characters long".
Definition AlreadyTaken (name : jsstring) : jsstring :=
  name ++ js " is already taken. Please use another name".
(* setNameData, updateNameData, clearName *)
Definition NotOwner_set : jsstring := js "Only name owner can set name data".
Definition NotOwner_update : jsstring := js "Only name owner can update name data".
Definition NotOwner_clear : jsstring := js "Only name owner can clear name. Aborting...".
Definition DataAlreadyExists (name : jsstring) : jsstring :=
  name ++ js " already has data associated with it".
Definition InvalidName : jsstring := js "Invalid name".
(* an empty field; in the earlier variant also a field that is too long *)
Definition Invalid_btc : jsstring := js "Invalid Bitcoin address".
Definition Invalid_eth : jsstring := js "Invalid Ethereum address".
Definition Invalid_twitter : jsstring := js "Invalid Twitter username".
(* the three wordings of "not registered" *)
Definition NotRegistered_claimed (name : jsstring) : jsstring :=
  name ++ js " has not been claimed yet".
Definition NotRegistered_clear : jsstring :=
  js "Cannot clear name that has not been claimed".
Definition NotRegistered_view (name : jsstring) : jsstring :=
  js "The name " ++ name ++ js " has not been registered yet".
(* viewNameData *)
Definition NoDataAttached (name : jsstring) : jsstring :=
  name ++ js " has no data associated with it".
End Msg.

(** ** The service *)

Section NameService.

(** The host's [Principal] with its [toString], and [JSON.stringify];
    [ic.caller()] is the argument [caller] of every update method. *)
Context {Principal : Type}.
Context (toString : Principal -> jsstring).
Context (JSON_stringify : JSONArg -> jsstring).

(** The two stable maps. *)
Record State : Type := mkState {
  register : gmap jsstring Principal;
  records : gmap jsstring Name
}.

(** The canister as deployed: both maps empty. *)
Definition init : State := {| register := ∅; records := ∅ |}.

(** The first test is [if (!isNameValid(name))]: the negation of the object
    that [isNameValid] returns. *)
Definition registerName (st : State) (caller : Principal) (_name : jsstring)
  : State * Result jsstring jsstring :=
  let name := trim _name in
  if negb (truthy_Result (isNameValid name)) then
    (st, Err Msg.InvalidFormat)
  else if (length name <? 2) || (16 <? length name) then
    (st, Err Msg.InvalidLength)
  else
    match register st !! name with
    | Some _ => (st, Err (Msg.AlreadyTaken name))
    | None =>
        ({| register := <[name := caller]> (register st); records := records st |},
         Ok (name ++ js " now maps to " ++ toString caller))
    end.

Definition setNameData (st : State) (caller : Principal)
    (name _btcAddress _ethAddress _twitterUsername : jsstring)
  : State * Result jsstring jsstring :=
  let btcAddress := trim _btcAddress in
  let ethAddress := trim _ethAddress in
  let twitterUsername := trim _twitterUsername in
  match register st !! name with
  | Some owner =>
      if bool_decide (toString caller ≠ toString owner) then
        (st, Err Msg.NotOwner_set)
      else if bool_decide (is_Some (records st !! name)) then
        (st, Err (Msg.DataAlreadyExists name))
      else if length btcAddress =? 0 then
        (st, Err Msg.Invalid_btc)
      else if length ethAddress =? 0 then
        (st, Err Msg.Invalid_eth)
      else if length twitterUsername =? 0 then
        (st, Err Msg.Invalid_twitter)
      else
        let nameData := mkName btcAddress ethAddress twitterUsername in
        ({| register := register st; records := <[name := nameData]> (records st) |},
         Ok (name ++ js " now maps to " ++ JSON_stringify (OfNameData nameData)))
  | None => (st, Err (Msg.NotRegistered_claimed name))
  end.

Definition updateNameData (st : State) (caller : Principal)
    (name _btcAddress _ethAddress _twitterUsername : jsstring)
  : State * Result jsstring jsstring :=
  if negb (truthy_string name) || negb (truthy_string (trim name)) then
    (st, Err Msg.InvalidName)
  else if negb (truthy_string _btcAddress) || negb (truthy_string (trim _btcAddress)) then
    (st, Err Msg.Invalid_btc)
  else if negb (truthy_string _ethAddress) || negb (truthy_string (trim _ethAddress)) then
    (st, Err Msg.Invalid_eth)
  else if negb (truthy_string _twitterUsername)
          || negb (truthy_string (trim _twitterUsername)) then
    (st, Err Msg.Invalid_twitter)
  else
    let btcAddress := trim _btcAddress in
    let ethAddress := trim _ethAddress in
    let twitterUsername := trim _twitterUsername in
    match register st !! name with
    | Some val =>
        if bool_decide (toString caller ≠ toString val) then
          (st, Err Msg.NotOwner_update)
        else if length btcAddress =? 0 then
          (st, Err Msg.Invalid_btc)
        else if length ethAddress =? 0 then
          (st, Err Msg.Invalid_eth)
        else if length twitterUsername =? 0 then
          (st, Err Msg.Invalid_twitter)
        else
          let nameData := mkName btcAddress ethAddress twitterUsername in
          let prevData := records st !! name in
          ({| register := register st; records := <[name := nameData]> (records st) |},
           Ok (name ++ js " data has now been updated from "
                    ++ JSON_stringify (OfPrevOrEmpty prevData)
                    ++ js " to " ++ JSON_stringify (OfNameData nameData)))
    | None => (st, Err (Msg.NotRegistered_claimed name))
    end.

(** [register.remove(name)], then [records.remove(name)], whose result goes
    into the message. *)
Definition clearName (st : State) (caller : Principal) (name : jsstring)
  : State * Result jsstring jsstring :=
  match register st !! name with
  | Some nameOwner =>
      if bool_decide (toString caller ≠ toString nameOwner) then
        (st, Err Msg.NotOwner_clear)
      else
        let prevData := records st !! name in
        ({| register := delete name (register st);
            records := delete name (records st) |},
         Ok (js "'" ++ name ++ js "' with data: " ++ JSON_stringify (OfRemoved prevData)
                ++ js " has been cleared from storage"))
  | None => (st, Err Msg.NotRegistered_clear)
  end.

Definition isNameAvailable (st : State) (name : jsstring) : bool :=
  match register st !! name with
  | Some _ => false
  | None => true
  end.

Definition getNameData (st : State) (name : jsstring) : Result Name jsstring :=
  match records st !! name with
  | Some nameData => Ok nameData
  | None => Err (js "Error getting name data for " ++ name ++ js ": null")
  end.

Definition viewNameData (st : State) (name : jsstring) : Result Name jsstring :=
  if isNameAvailable st name then
    Err (Msg.NotRegistered_claimed name)
  else if negb (bool_decide (is_Some (records st !! name))) then
    Err (Msg.NoDataAttached name)
  else
    getNameData st name.

Definition viewRegisteredName (st : State) (name : jsstring) : Result jsstring jsstring :=
  match register st !! name with
  | Some val => Ok (toString val)
  | None => Err (Msg.NotRegistered_view name)
  end.

(** [register.keys()] lists the keys of the map, each once. *)
Definition viewAllNames (st : State) : Result (list jsstring) jsstring :=
  let keys := (map_to_list (register st)).*1 in
  if length keys =? 0 then Err (js "No names found.") else Ok keys.

(** *** Calls and reachable states *)

(** The update methods; the query methods leave the maps as they are. *)
Inductive Call : Type :=
| CallRegisterName (_name : jsstring)
| CallSetNameData (name _btcAddress _ethAddress _twitterUsername : jsstring)
| CallUpdateNameData (name _btcAddress _ethAddress _twitterUsername : jsstring)
| CallClearName (name : jsstring).

Definition run (st : State) (caller : Principal) (c : Call)
  : State * Result jsstring jsstring :=
  match c with
  | CallRegisterName n => registerName st caller n
  | CallSetNameData n b e t => setNameData st caller n b e t
  | CallUpdateNameData n b e t => updateNameData st caller n b e t
  | CallClearName n => clearName st caller n
  end.

(** The states the canister can be in: [init], and whatever a call by some
    caller leaves behind. *)
Inductive reachable : State -> Prop :=
| reachable_init : reachable init
| reachable_call st caller c : reachable st -> reachable (run st caller c).1.

End NameService.

(** ** Invariants of the two maps *)

(** Every registered name is what [registerName] let through: trimmed and of
    2 to 16 code units. *)
Definition keys_checked {Principal : Type} (st : @State Principal) : Prop :=
  forall k, is_Some (register st !! k) -> trim k = k /\ 2 <= length k <= 16.

(** Data is attached to registered names only. *)
Definition data_owned {Principal : Type} (st : @State Principal) : Prop :=
  dom (records st) ⊆ dom (register st).

(** A stored field is what the data methods let through: not empty, and
    trimmed. *)
Definition field_checked (f : jsstring) : Prop := f ≠ [] /\ trim f = f.

Definition records_checked {Principal : Type} (st : @State Principal) : Prop :=
  forall k d, records st !! k = Some d ->
    field_checked (btcAddress d) /\ field_checked (ethAddress d)
    /\ field_checked (twitterUsername d).

(** The key a call works on: [registerName] trims its argument, the other
    methods take the name as given. *)
Definition key_of (c : Call) : jsstring :=
  match c with
  | CallRegisterName _name => trim _name
  | CallSetNameData name _ _ _ => name
  | CallUpdateNameData name _ _ _ => name
  | CallClearName name => name
  end.

(** ** The bound of the [records] map

    [records] is [new StableBTreeMap<string, Name>(1, 64, 1024)]: a value takes
    at most 1024 bytes in the host's encoding, and what [records.insert] does
    with a larger one is the host's. The methods above are written with an
    insertion that stores; that a record is stored is stated only of a record
    within the bound. A record whose three fields have 300 code units together
    is within it: a code unit takes at most 3 bytes, and the framing of the
    three fields stays under 100. A name of at most 16 code units and its
    owner are within the bounds of [register] in the same way. *)
Definition within_value_bound (d : Name) : Prop :=
  length (btcAddress d) + length (ethAddress d) + length (twitterUsername d) <= 300.

(** ** Field validation as the specification words it

    [validateField(raw, maxLen?)]: trim; [EmptyField] if nothing is left; with a
    [maxLen], [FieldTooLong] if more than [maxLen] characters are left. *)
Inductive FieldError : Type := EmptyField | FieldTooLong.

Definition validateField (raw : jsstring) (maxLen : option nat)
  : Result jsstring FieldError :=
  let v := trim raw in
  if length v =? 0 then Err EmptyField
  else match maxLen with
       | Some m => if m <? length v then Err FieldTooLong else Ok v
       | None => Ok v
       end.

(** The three fields in the order btc, eth, twitter; the first that fails
    gives the message of its field. *)
Definition validateFields (maxLen : option nat) (b e t : jsstring)
  : Result Name jsstring :=
  match validateField b maxLen with
  | Err _ => Err Msg.Invalid_btc
  | Ok b' =>
      match validateField e maxLen with
      | Err _ => Err Msg.Invalid_eth
      | Ok e' =>
          match validateField t maxLen with
          | Err _ => Err Msg.Invalid_twitter
          | Ok t' => Ok (mkName b' e' t')
          end
      end
  end.

(** ** The earlier variant of the two data methods

    The source file opens with an earlier text of [registerName],
    [setNameData] and [updateNameData] (it stops at "other functions remain
    unchanged"). There both data methods check the fields for emptiness and
    for more than 100 characters, and [updateNameData] has no check before the
    look-up. *)
Module Earlier.
Section NameService.
Context {Principal : Type}.
Context (toString : Principal -> jsstring).
Context (JSON_stringify : JSONArg -> jsstring).

Definition setNameData (st : State) (caller : Principal)
    (name _btcAddress _ethAddress _twitterUsername : jsstring)
  : State * Result jsstring jsstring :=
  let btcAddress := trim _btcAddress in
  let ethAddress := trim _ethAddress in
  let twitterUsername := trim _twitterUsername in
  match register st !! name with
  | Some owner =>
      if bool_decide (toString caller ≠ toString owner) then
        (st, Err Msg.NotOwner_set)
      else if bool_decide (is_Some (records st !! name)) then
        (st, Err (Msg.DataAlreadyExists name))
      else if (length btcAddress =? 0) || (100 <? length btcAddress) then
        (st, Err Msg.Invalid_btc)
      else if (length ethAddress =? 0) || (100 <? length ethAddress) then
        (st, Err Msg.Invalid_eth)
      else if (length twitterUsername =? 0) || (100 <? length twitterUsername) then
        (st, Err Msg.Invalid_twitter)
      else
        let nameData := mkName btcAddress ethAddress twitterUsername in
        ({| register := register st; records := <[name := nameData]> (records st) |},
         Ok (name ++ js " now maps to " ++ JSON_stringify (OfNameData nameData)))
  | None => (st, Err (Msg.NotRegistered_claimed name))
  end.

Definition updateNameData (st : State) (caller : Principal)
    (name _btcAddress _ethAddress _twitterUsername : jsstring)
  : State * Result jsstring jsstring :=
  let btcAddress := trim _btcAddress in
  let ethAddress := trim _ethAddress in
  let twitterUsername := trim _twitterUsername in
  match register st !! name with
  | Some owner =>
      if bool_decide (toString caller ≠ toString owner) then
        (st, Err Msg.NotOwner_update)
      else if (length btcAddress =? 0) || (100 <? length btcAddress) then
        (st, Err Msg.Invalid_btc)
      else if (length ethAddress =? 0) || (100 <? length ethAddress) then
        (st, Err Msg.Invalid_eth)
      else if (length twitterUsername =? 0) || (100 <? length twitterUsername) then
        (st, Err Msg.Invalid_twitter)
      else
        let nameData := mkName btcAddress ethAddress twitterUsername in
        let prevData := records st !! name in
        ({| register := register st; records := <[name := nameData]> (records st) |},
         Ok (name ++ js " data has now been updated from "
                  ++ JSON_stringify (OfPrevOrEmpty prevData)
                  ++ js " to " ++ JSON_stringify (OfNameData nameData)))
  | None => (st, Err (Msg.NotRegistered_claimed name))
  end.
End NameService.
End Earlier.

(** ** A host to run the examples on

    Principals are given by their text, and [JSON.stringify] writes the fields
    in the order of the declaration, around strings that need no escape. *)
Module Demo.
Definition Principal : Type := jsstring.
Definition toString (p : Principal) : jsstring := p.

Definition quoted (s : jsstring) : jsstring := 34%N :: s ++ [34%N].

Definition stringify_Name (n : Name) : jsstring :=
  js "{" ++ quoted (js "btcAddress") ++ js ":" ++ quoted (btcAddress n)
    ++ js "," ++ quoted (js "ethAddress") ++ js ":" ++ quoted (ethAddress n)
    ++ js "," ++ quoted (js "twitterUsername") ++ js ":" ++ quoted (twitterUsername n)
    ++ js "}".

Definition JSON_stringify (a : JSONArg) : jsstring :=
  match a with
  | OfNameData n => stringify_Name n
  | OfPrevOrEmpty (Some n) => stringify_Name n
  | OfPrevOrEmpty None => js "{}"
  | OfRemoved (Some n) => js "{" ++ quoted (js "Some") ++ js ":" ++ stringify_Name n ++ js "}"
  | OfRemoved None => js "{" ++ quoted (js "None") ++ js ":null}"
  end.

(** Two callers. *)
Definition X : Principal := js "2vxsx-fae".
Definition Y : Principal := js "aaaaa-aa".

(** The registry after [X] registered [alice1]. *)
Definition registered : State :=
  (registerName toString init X (js "alice1")).1.

(** The registry after [X] also attached data to [alice1]. *)
Definition with_data : State :=
  (setNameData toString JSON_stringify registered X
     (js "alice1") (js "bc1qxy") (js "0xAbC") (js "alice_tw")).1.

(** A field of 101 characters. *)
Definition long_field : jsstring := repeat 120%N 101.
End Demo.

(** ** Facts about [trim] *)

Lemma trimStart_head (s : jsstring) :
  match trimStart s with
  | [] => True
  | c :: _ => isWhiteSpace c = false
  end.
Proof.
  induction s as [|c r IH]; simpl; [done|].
  destruct (isWhiteSpace c) eqn:Hc; [exact IH | exact Hc].
Qed.

Lemma trimStart_id (s : jsstring) :
  match s with [] => True | c :: _ => isWhiteSpace c = false end ->
  trimStart s = s.
Proof. destruct s as [|c r]; simpl; [done|]. by intros ->. Qed.

Lemma trimStart_idemp (s : jsstring) : trimStart (trimStart s) = trimStart s.
Proof. apply trimStart_id, trimStart_head. Qed.

(** Stripping the front keeps a last character that is not white space. *)
Lemma trimStart_snoc (l : jsstring) (c : code_unit) :
  isWhiteSpace c = false -> exists p, trimStart (l ++ [c]) = p ++ [c].
Proof.
  intros Hc. induction l as [|d l IH]; simpl.
  - rewrite Hc. by exists [].
  - destruct (isWhiteSpace d); [exact IH | by exists (d :: l)].
Qed.

Lemma trim_idemp (s : jsstring) : trim (trim s) = trim s.
Proof.
  unfold trim, trimEnd.
  pose proof (trimStart_head s) as Hhead.
  destruct (trimStart s) as [|c u]; [done|].
  destruct (trimStart_snoc (rev u) c Hhead) as [p Hp].
  change (rev (c :: u)) with (rev u ++ [c]).
  assert (Hfront : trimStart (rev (p ++ [c])) = rev (p ++ [c])).
  { rewrite rev_app_distr. simpl. by rewrite Hhead. }
  rewrite Hp, Hfront, rev_involutive.
  by rewrite <- Hp, trimStart_idemp.
Qed.

(** A character of the class [[A-Za-z0-9]] is not white space. *)
Lemma isAlnum_not_WhiteSpace (c : code_unit) :
  isAlnum c = true -> isWhiteSpace c = false.
Proof.
  unfold isAlnum, isWhiteSpace. intros Hal.
  apply not_true_is_false. intros Hws.
  rewrite !orb_true_iff, !andb_true_iff, !N.leb_le in Hal.
  rewrite !orb_true_iff, !andb_true_iff, !N.leb_le, !N.eqb_eq in Hws.
  lia.
Qed.

(** A string the regular expression accepts has nothing to trim. *)
Lemma trim_valid (s : jsstring) : validNameRegex_test s = true -> trim s = s.
Proof.
  unfold validNameRegex_test. intros [_ Hall]%andb_prop.
  assert (Hno : forall c, In c s -> isWhiteSpace c = false).
  { intros c Hin. apply isAlnum_not_WhiteSpace.
    by apply (proj1 (forallb_forall isAlnum s) Hall). }
  unfold trim, trimEnd.
  rewrite (trimStart_id s); [|destruct s; [done|apply Hno; by left]].
  rewrite trimStart_id; [apply rev_involutive|].
  destruct (rev s) as [|d q] eqn:Hrev; [done|].
  apply Hno, in_rev. rewrite Hrev. by left.
Qed.

(** ** Emptiness tests *)

Lemma truthy_string_nonempty (s : jsstring) : s ≠ [] -> truthy_string s = true.
Proof. by destruct s. Qed.

Lemma length_eqb_nonempty (s : jsstring) : s ≠ [] -> (length s =? 0) = false.
Proof. by destruct s. Qed.

Lemma trim_nonempty (s : jsstring) : trim s ≠ [] -> s ≠ [].
Proof. by intros H ->. Qed.

(** The guard [!s || !s.trim()] passes exactly when [s.trim()] is not empty. *)
Lemma blank_guard (s : jsstring) :
  trim s ≠ [] -> negb (truthy_string s) || negb (truthy_string (trim s)) = false.
Proof.
  intros H. by rewrite (truthy_string_nonempty _ H),
    (truthy_string_nonempty _ (trim_nonempty _ H)).
Qed.

Lemma blank_guard_blank (s : jsstring) :
  trim s = [] -> negb (truthy_string s) || negb (truthy_string (trim s)) = true.
Proof. intros ->. simpl. apply orb_true_r. Qed.

(** The format test of [registerName] never fires: [isNameValid] returns an
    object, and [!] of an object is [false]. *)
Lemma isNameValid_truthy (str : jsstring) : negb (truthy_Result (isNameValid str)) = false.
Proof. unfold isNameValid. by destruct (validNameRegex_test str). Qed.

Section Properties.
Context {Principal : Type}.
Context (toString : Principal -> jsstring).
Context (JSON_stringify : JSONArg -> jsstring).

Implicit Types (st : @State Principal) (caller owner : Principal).
Implicit Types (name b e t : jsstring).

Lemma registerName_cases st caller _name :
  let name := trim _name in
  registerName toString st caller _name =
    if (length name <? 2) || (16 <? length name) then (st, Err Msg.InvalidLength)
    else match register st !! name with
         | Some _ => (st, Err (Msg.AlreadyTaken name))
         | None =>
             ({| register := <[name := caller]> (register st); records := records st |},
              Ok (name ++ js " now maps to " ++ toString caller))
         end.
Proof. intros name. unfold registerName. by rewrite isNameValid_truthy. Qed.

(** Whatever the characters of the trimmed name are, a free name of 2 to 16
    code units is registered. *)
Lemma registerName_format_unchecked st caller _name :
  2 <= length (trim _name) <= 16 ->
  register st !! trim _name = None ->
  registerName toString st caller _name =
    ({| register := <[trim _name := caller]> (register st); records := records st |},
     Ok (trim _name ++ js " now maps to " ++ toString caller)).
Proof.
  intros Hlen Hfree. rewrite registerName_cases, Hfree.
  destruct (length (trim _name) <? 2) eqn:H2; [apply Nat.ltb_lt in H2; lia|].
  by destruct (16 <? length (trim _name)) eqn:H16; [apply Nat.ltb_lt in H16; lia|].
Qed.

Lemma run_keys_checked st caller c :
  keys_checked st -> keys_checked (run toString JSON_stringify st caller c).1.
Proof.
  intros Hst. destruct c as [n|n b e t|n b e t|n]; simpl.
  - rewrite registerName_cases.
    destruct (_ || _) eqn:Hlen; [done|].
    destruct (register st !! trim n) eqn:Hn; [done|].
    intros k Hk. simpl in Hk. destruct (decide (k = trim n)) as [->|Hne].
    + split; [apply trim_idemp|].
      apply orb_false_elim in Hlen as [H2%Nat.ltb_ge H16%Nat.ltb_ge]. lia.
    + rewrite lookup_insert_ne in Hk by done. by apply Hst.
  - unfold setNameData. by repeat (case_match; try done).
  - unfold updateNameData. by repeat (case_match; try done).
  - unfold clearName. repeat (case_match; try done).
    intros k Hk. simpl in Hk. apply Hst. destruct (decide (k = n)) as [->|Hne].
    + by rewrite lookup_delete_eq in Hk; destruct Hk.
    + by rewrite lookup_delete_ne in Hk.
Qed.

Lemma data_owned_lookup st :
  data_owned st <->
  forall k, is_Some (records st !! k) -> is_Some (register st !! k).
Proof.
  unfold data_owned. split.
  - intros Hsub k Hk. by apply elem_of_dom, Hsub, elem_of_dom.
  - intros Hall k Hk. by apply elem_of_dom, Hall, elem_of_dom.
Qed.

Lemma run_data_owned st caller c :
  data_owned st -> data_owned (run toString JSON_stringify st caller c).1.
Proof.
  rewrite !data_owned_lookup.
  intros Hst. destruct c as [n|n b e t|n b e t|n]; simpl.
  - rewrite registerName_cases. repeat (case_match; try done).
    intros k Hk. simpl in *. destruct (decide (k = trim n)) as [->|Hne].
    + by rewrite lookup_insert_eq.
    + rewrite lookup_insert_ne by done. by apply Hst.
  - unfold setNameData. repeat (case_match; try done).
    intros k Hk. simpl in *. destruct (decide (k = n)) as [->|Hne]; [by eauto|].
    rewrite lookup_insert_ne in Hk by done. by apply Hst.
  - unfold updateNameData. repeat (case_match; try done).
    intros k Hk. simpl in *. destruct (decide (k = n)) as [->|Hne]; [by eauto|].
    rewrite lookup_insert_ne in Hk by done. by apply Hst.
  - unfold clearName. repeat (case_match; try done).
    intros k Hk. simpl in *. destruct (decide (k = n)) as [->|Hne].
    + rewrite lookup_delete_eq in Hk. by destruct Hk.
    + rewrite lookup_delete_ne in Hk by done.
      rewrite lookup_delete_ne by done. by apply Hst.
Qed.

Lemma reachable_keys_checked st :
  reachable toString JSON_stringify st -> keys_checked st.
Proof.
  induction 1 as [|st caller c _ IH].
  - intros k [v Hk]. simpl in Hk. by rewrite lookup_empty in Hk.
  - by apply run_keys_checked.
Qed.

Lemma reachable_data_owned st :
  reachable toString JSON_stringify st -> data_owned st.
Proof.
  induction 1 as [|st caller c _ IH].
  - apply data_owned_lookup. intros k [v Hk]. simpl in Hk.
    by rewrite lookup_empty in Hk.
  - by apply run_data_owned.
Qed.

(** *** The paths of the methods *)

Lemma owner_guard_pass caller owner :
  toString caller = toString owner ->
  bool_decide (toString caller ≠ toString owner) = false.
Proof. intros Heq. apply bool_decide_eq_false_2. by intros Hne. Qed.

Lemma owner_guard_fail caller owner :
  toString caller ≠ toString owner ->
  bool_decide (toString caller ≠ toString owner) = true.
Proof. intros Hne. by apply bool_decide_eq_true_2. Qed.

Lemma setNameData_unregistered st caller name b e t :
  register st !! name = None ->
  setNameData toString JSON_stringify st caller name b e t
    = (st, Err (Msg.NotRegistered_claimed name)).
Proof. intros Hn. unfold setNameData. by rewrite Hn. Qed.

(** Past its four guards [updateNameData] is the look-up, the owner test and
    the insertion. *)
Lemma updateNameData_cases st caller name b e t :
  trim name ≠ [] -> trim b ≠ [] -> trim e ≠ [] -> trim t ≠ [] ->
  updateNameData toString JSON_stringify st caller name b e t =
    match register st !! name with
    | Some val =>
        if bool_decide (toString caller ≠ toString val) then
          (st, Err Msg.NotOwner_update)
        else
          let nameData := mkName (trim b) (trim e) (trim t) in
          ({| register := register st; records := <[name := nameData]> (records st) |},
           Ok (name ++ js " data has now been updated from "
                    ++ JSON_stringify (OfPrevOrEmpty (records st !! name))
                    ++ js " to " ++ JSON_stringify (OfNameData nameData)))
    | None => (st, Err (Msg.NotRegistered_claimed name))
    end.
Proof.
  intros Hn Hb He Ht. unfold updateNameData.
  rewrite !blank_guard, !length_eqb_nonempty by done. done.
Qed.

Lemma updateNameData_unregistered st caller name b e t :
  register st !! name = None ->
  trim name ≠ [] -> trim b ≠ [] -> trim e ≠ [] -> trim t ≠ [] ->
  updateNameData toString JSON_stringify st caller name b e t
    = (st, Err (Msg.NotRegistered_claimed name)).
Proof. intros Hreg Hn Hb He Ht. by rewrite updateNameData_cases, Hreg. Qed.

Lemma clearName_unregistered st caller name :
  register st !! name = None ->
  clearName toString JSON_stringify st caller name = (st, Err Msg.NotRegistered_clear).
Proof. intros Hn. unfold clearName. by rewrite Hn. Qed.

Lemma viewNameData_unregistered st name :
  register st !! name = None ->
  viewNameData st name = Err (Msg.NotRegistered_claimed name).
Proof. intros Hn. unfold viewNameData, isNameAvailable. by rewrite Hn. Qed.

Lemma viewRegisteredName_unregistered st name :
  register st !! name = None ->
  viewRegisteredName toString st name = Err (Msg.NotRegistered_view name).
Proof. intros Hn. unfold viewRegisteredName. by rewrite Hn. Qed.

(** Each update method returns the state it was given whenever it returns
    an [Err]. *)
Lemma registerName_Err st caller _name st' msg :
  registerName toString st caller _name = (st', Err msg) -> st' = st.
Proof. unfold registerName. repeat case_match; congruence. Qed.

Lemma setNameData_Err st caller name b e t st' msg :
  setNameData toString JSON_stringify st caller name b e t = (st', Err msg) -> st' = st.
Proof. unfold setNameData. repeat case_match; congruence. Qed.

Lemma updateNameData_Err st caller name b e t st' msg :
  updateNameData toString JSON_stringify st caller name b e t = (st', Err msg) -> st' = st.
Proof. unfold updateNameData. repeat case_match; congruence. Qed.

Lemma clearName_Err st caller name st' msg :
  clearName toString JSON_stringify st caller name = (st', Err msg) -> st' = st.
Proof. unfold clearName. repeat case_match; congruence. Qed.

(** The four guards of [updateNameData], in their order, before any look-up:
    a blank name, then the first blank field among btc, eth and twitter. *)
Lemma updateNameData_guards st caller name b e t :
  (trim name = [] ->
   updateNameData toString JSON_stringify st caller name b e t
     = (st, Err Msg.InvalidName)) /\
  (trim name ≠ [] -> trim b = [] ->
   updateNameData toString JSON_stringify st caller name b e t
     = (st, Err Msg.Invalid_btc)) /\
  (trim name ≠ [] -> trim b ≠ [] -> trim e = [] ->
   updateNameData toString JSON_stringify st caller name b e t
     = (st, Err Msg.Invalid_eth)) /\
  (trim name ≠ [] -> trim b ≠ [] -> trim e ≠ [] -> trim t = [] ->
   updateNameData toString JSON_stringify st caller name b e t
     = (st, Err Msg.Invalid_twitter)).
Proof.
  unfold updateNameData. split; [|split; [|split]].
  - intros Hn. by rewrite (blank_guard_blank name Hn).
  - intros Hn Hb. by rewrite (blank_guard name Hn), (blank_guard_blank b Hb).
  - intros Hn Hb He.
    by rewrite (blank_guard name Hn), (blank_guard b Hb), (blank_guard_blank e He).
  - intros Hn Hb He Ht.
    by rewrite (blank_guard name Hn), (blank_guard b Hb), (blank_guard e He),
      (blank_guard_blank t Ht).
Qed.

(** [updateNameData] by someone who is not the owner fails whatever the
    fields are: on a guard, or on the owner test. *)
Lemma updateNameData_not_owner st caller owner name b e t :
  register st !! name = Some owner ->
  toString caller ≠ toString owner ->
  exists msg,
    updateNameData toString JSON_stringify st caller name b e t = (st, Err msg).
Proof.
  intros Hreg Hne. unfold updateNameData.
  rewrite Hreg, (owner_guard_fail _ _ Hne).
  repeat case_match; eauto.
Qed.

(** A name in the register of a reachable state is not blank. *)
Lemma reachable_key_not_blank st name owner :
  reachable toString JSON_stringify st ->
  register st !! name = Some owner -> trim name ≠ [].
Proof.
  intros Hst Hreg.
  destruct (reachable_keys_checked st Hst name) as [Htrim Hlen]; [by eauto|].
  rewrite Htrim. intros ->. simpl in Hlen. lia.
Qed.

(** In a reachable state a name that [trim] changes is not in the register. *)
Lemma reachable_untrimmed_unregistered st name :
  reachable toString JSON_stringify st ->
  trim name ≠ name -> register st !! name = None.
Proof.
  intros Hst Hne.
  destruct (register st !! name) as [owner|] eqn:Hreg; [|done].
  destruct (reachable_keys_checked st Hst name) as [Htrim _]; [by eauto|].
  by destruct Hne.
Qed.

End Properties.

(** ** The earlier variant against the specification's validation *)

Section EarlierProperties.
Context {Principal : Type}.
Context (toString : Principal -> jsstring).
Context (JSON_stringify : JSONArg -> jsstring).

Implicit Types (st : @State Principal) (caller owner : Principal).

(** The earlier [setNameData] validates with the cap of 100. *)
Lemma Earlier_setNameData_capped st caller owner name b e t :
  register st !! name = Some owner ->
  toString caller = toString owner ->
  records st !! name = None ->
  Earlier.setNameData toString JSON_stringify st caller name b e t =
    match validateFields (Some 100) b e t with
    | Err m => (st, Err m)
    | Ok d =>
        ({| register := register st; records := <[name := d]> (records st) |},
         Ok (name ++ js " now maps to " ++ JSON_stringify (OfNameData d)))
    end.
Proof.
  intros Hreg Hown Hrec. unfold Earlier.setNameData, validateFields, validateField.
  rewrite Hreg, (owner_guard_pass toString _ _ Hown), Hrec.
  rewrite bool_decide_eq_false_2 by (by intros [? ?]).
  destruct (length (trim b) =? 0), (100 <? length (trim b)); simpl; try done;
  destruct (length (trim e) =? 0), (100 <? length (trim e)); simpl; try done;
  destruct (length (trim t) =? 0), (100 <? length (trim t)); simpl; done.
Qed.

(** So does the earlier [updateNameData]. *)
Lemma Earlier_updateNameData_capped st caller owner name b e t :
  register st !! name = Some owner ->
  toString caller = toString owner ->
  Earlier.updateNameData toString JSON_stringify st caller name b e t =
    match validateFields (Some 100) b e t with
    | Err m => (st, Err m)
    | Ok d =>
        ({| register := register st; records := <[name := d]> (records st) |},
         Ok (name ++ js " data has now been updated from "
                  ++ JSON_stringify (OfPrevOrEmpty (records st !! name))
                  ++ js " to " ++ JSON_stringify (OfNameData d)))
    end.
Proof.
  intros Hreg Hown. unfold Earlier.updateNameData, validateFields, validateField.
  rewrite Hreg, (owner_guard_pass toString _ _ Hown).
  destruct (length (trim b) =? 0), (100 <? length (trim b)); simpl; try done;
  destruct (length (trim e) =? 0), (100 <? length (trim e)); simpl; try done;
  destruct (length (trim t) =? 0), (100 <? length (trim t)); simpl; done.
Qed.

End EarlierProperties.

(** ** The properties of the specification *)

Section Claims.
Context {Principal : Type}.
Context (toString : Principal -> jsstring).
Context (JSON_stringify : JSONArg -> jsstring).

Implicit Types (st : @State Principal) (caller owner : Principal).

(** C1, on the code as it is: the trimmed form of [al!ce] has a character
    outside [[A-Za-z0-9]], yet [registerName] on the empty registry does not
    answer with the format error: it inserts the name for the caller and
    returns [Ok]. *)
Theorem C1_registerName_accepts_al_ce caller :
  validNameRegex_test (trim (js "al!ce")) = false /\
  registerName toString init caller (js "al!ce") =
    ({| register := <[js "al!ce" := caller]> ∅; records := ∅ |},
     Ok (js "al!ce now maps to " ++ toString caller)).
Proof. split; reflexivity. Qed.


(** C3, amended: on a name that is not in the register, [setNameData] and
    [clearName] fail with their not-registered error for all other
    arguments. [updateNameData] tests its arguments before it looks the name
    up: it fails with [Invalid name] on a blank name, else with the error of
    the first blank field in the order btc, eth, twitter, and with the
    not-registered error when the name and the three fields are not blank.
    The maps are as before in every case. *)
Theorem C3_unregistered_name st caller name :
  register st !! name = None ->
  (forall b e t,
     setNameData toString JSON_stringify st caller name b e t
       = (st, Err (Msg.NotRegistered_claimed name))) /\
  (forall b e t,
     (trim name = [] ->
      updateNameData toString JSON_stringify st caller name b e t
        = (st, Err Msg.InvalidName)) /\
     (trim name ≠ [] -> trim b = [] ->
      updateNameData toString JSON_stringify st caller name b e t
        = (st, Err Msg.Invalid_btc)) /\
     (trim name ≠ [] -> trim b ≠ [] -> trim e = [] ->
      updateNameData toString JSON_stringify st caller name b e t
        = (st, Err Msg.Invalid_eth)) /\
     (trim name ≠ [] -> trim b ≠ [] -> trim e ≠ [] -> trim t = [] ->
      updateNameData toString JSON_stringify st caller name b e t
        = (st, Err Msg.Invalid_twitter)) /\
     (trim name ≠ [] -> trim b ≠ [] -> trim e ≠ [] -> trim t ≠ [] ->
      updateNameData toString JSON_stringify st caller name b e t
        = (st, Err (Msg.NotRegistered_claimed name)))) /\
  clearName toString JSON_stringify st caller name = (st, Err Msg.NotRegistered_clear).
Proof.
  intros Hreg. split; [|split].
  - intros b e t. by apply setNameData_unregistered.
  - intros b e t.
    destruct (updateNameData_guards toString JSON_stringify st caller name b e t)
      as (Hname & Hb & He & Ht).
    split; [exact Hname|]. split; [exact Hb|]. split; [exact He|]. split; [exact Ht|].
    intros. by apply updateNameData_unregistered.
  - by apply clearName_unregistered.
Qed.

(** C4: whenever [registerName], [setNameData], [updateNameData] or
    [clearName] returns an error, the state it returns, with both maps, is
    the state it was called on. *)
Theorem C4_error_leaves_stores_unchanged st caller :
  (forall _name st' msg,
     registerName toString st caller _name = (st', Err msg) -> st' = st) /\
  (forall name b e t st' msg,
     setNameData toString JSON_stringify st caller name b e t = (st', Err msg) ->
     st' = st) /\
  (forall name b e t st' msg,
     updateNameData toString JSON_stringify st caller name b e t = (st', Err msg) ->
     st' = st) /\
  (forall name st' msg,
     clearName toString JSON_stringify st caller name = (st', Err msg) -> st' = st).
Proof.
  repeat split; intros.
  - by eapply registerName_Err.
  - by eapply setNameData_Err.
  - by eapply updateNameData_Err.
  - by eapply clearName_Err.
Qed.

(** C5: in every state reachable from the empty registry by calls of the
    update methods the keys of [records] are keys of [register]; every call
    keeps it so. *)
Theorem C5_data_keys_subset st :
  (forall caller c,
     dom (records st) ⊆ dom (register st) ->
     dom (records (run toString JSON_stringify st caller c).1)
       ⊆ dom (register (run toString JSON_stringify st caller c).1)) /\
  (reachable toString JSON_stringify st ->
   dom (records st) ⊆ dom (register st)).
Proof.
  split.
  - intros caller c. apply run_data_owned.
  - apply reachable_data_owned.
Qed.

(** C6, amended: in a reachable state where [name] is registered to [A], a
    caller [B] other than [A] (identities being told apart by their display
    strings) cannot change the maps: [setNameData] and [clearName] fail with
    their not-owner error; [updateNameData], which tests the fields first,
    fails with the error of the first blank field in the order btc, eth,
    twitter, and with its not-owner error when no field is blank. *)
Theorem C6_only_owner st A B name :
  (forall p q : Principal, toString p = toString q -> p = q) ->
  reachable toString JSON_stringify st ->
  register st !! name = Some A ->
  B ≠ A ->
  (forall b e t,
     setNameData toString JSON_stringify st B name b e t
       = (st, Err Msg.NotOwner_set)) /\
  (forall b e t,
     (trim b = [] ->
      updateNameData toString JSON_stringify st B name b e t
        = (st, Err Msg.Invalid_btc)) /\
     (trim b ≠ [] -> trim e = [] ->
      updateNameData toString JSON_stringify st B name b e t
        = (st, Err Msg.Invalid_eth)) /\
     (trim b ≠ [] -> trim e ≠ [] -> trim t = [] ->
      updateNameData toString JSON_stringify st B name b e t
        = (st, Err Msg.Invalid_twitter)) /\
     (trim b ≠ [] -> trim e ≠ [] -> trim t ≠ [] ->
      updateNameData toString JSON_stringify st B name b e t
        = (st, Err Msg.NotOwner_update))) /\
  clearName toString JSON_stringify st B name = (st, Err Msg.NotOwner_clear).
Proof.
  intros Hinj Hst Hreg HBA.
  assert (Hne : toString B ≠ toString A) by (intros Heq; by apply HBA, Hinj).
  pose proof (reachable_key_not_blank toString JSON_stringify st name A Hst Hreg) as Hname.
  split; [|split].
  - intros b e t. unfold setNameData.
    by rewrite Hreg, (owner_guard_fail toString _ _ Hne).
  - intros b e t.
    destruct (updateNameData_guards toString JSON_stringify st B name b e t)
      as (_ & Hb & He & Ht).
    split; [by apply Hb|]. split; [by apply He|]. split; [by apply Ht|].
    intros. rewrite updateNameData_cases by done.
    by rewrite Hreg, (owner_guard_fail toString _ _ Hne).
  - unfold clearName. by rewrite Hreg, (owner_guard_fail toString _ _ Hne).
Qed.

(** C7, amended: when [X] owns [name], no data is attached to it yet (by
    [setNameData] or by [updateNameData]) and the three fields are not blank
    and make a record within the bound of the map, [setNameData] by [X]
    succeeds and stores the trimmed fields, and a second [setNameData] by [X],
    whatever its fields, fails with the data-already-exists error and leaves
    that record. *)
Theorem C7_setNameData_twice st X name b e t b' e' t' :
  register st !! name = Some X ->
  records st !! name = None ->
  trim b ≠ [] -> trim e ≠ [] -> trim t ≠ [] ->
  within_value_bound (mkName (trim b) (trim e) (trim t)) ->
  exists st1 msg,
    setNameData toString JSON_stringify st X name b e t = (st1, Ok msg) /\
    register st1 = register st /\
    records st1 !! name = Some (mkName (trim b) (trim e) (trim t)) /\
    setNameData toString JSON_stringify st1 X name b' e' t'
      = (st1, Err (Msg.DataAlreadyExists name)).
Proof.
  intros Hreg Hrec Hb He Ht _.
  eexists _, _. split; [|split; [|split]].
  - unfold setNameData.
    rewrite Hreg, (owner_guard_pass toString X X eq_refl), Hrec.
    rewrite bool_decide_eq_false_2 by (by intros [? ?]).
    by rewrite !length_eqb_nonempty.
  - done.
  - simpl. apply lookup_insert_eq.
  - unfold setNameData. simpl.
    rewrite Hreg, (owner_guard_pass toString X X eq_refl), lookup_insert_eq.
    by rewrite bool_decide_eq_true_2.
Qed.

(** C8: after a [clearName] that succeeded in a reachable state the name is
    in neither map, [viewRegisteredName] and [viewNameData] fail with their
    not-registered error, and [registerName] on it succeeds for every caller
    and makes that caller the owner. *)
Theorem C8_clearName_frees_name st X name st' msg :
  reachable toString JSON_stringify st ->
  clearName toString JSON_stringify st X name = (st', Ok msg) ->
  register st' !! name = None /\
  records st' !! name = None /\
  viewRegisteredName toString st' name = Err (Msg.NotRegistered_view name) /\
  viewNameData st' name = Err (Msg.NotRegistered_claimed name) /\
  forall Y, exists st'' msg',
    registerName toString st' Y name = (st'', Ok msg') /\
    register st'' !! name = Some Y.
Proof.
  intros Hst Hclear. unfold clearName in Hclear.
  destruct (register st !! name) as [owner|] eqn:Hreg; [|done].
  destruct (bool_decide _); [done|].
  injection Hclear as <- _.
  destruct (reachable_keys_checked _ _ st Hst name) as [Htrim Hlen]; [by eauto|].
  assert (Hgone : forall r, register {| register := delete name (register st);
                                        records := r |} !! name = None).
  { intros r. simpl. apply lookup_delete_eq. }
  repeat split.
  - apply Hgone.
  - simpl. apply lookup_delete_eq.
  - apply viewRegisteredName_unregistered, Hgone.
  - apply viewNameData_unregistered, Hgone.
  - intros Y. rewrite registerName_cases, Htrim. simpl register.
    rewrite lookup_delete_eq.
    destruct (length name <? 2) eqn:H2; [apply Nat.ltb_lt in H2; lia|].
    destruct (16 <? length name) eqn:H16; [apply Nat.ltb_lt in H16; lia|].
    simpl. eexists _, _. split; [done|]. simpl. apply lookup_insert_eq.
Qed.

(** C9: for a name the regular expression accepts, of 2 to 16 characters and
    not registered, [registerName] by [X] succeeds, and [viewRegisteredName]
    on that name in the state it leaves returns [Ok] with the display string
    of [X]. *)
Theorem C9_register_then_view st X name :
  validNameRegex_test name = true ->
  2 <= length name <= 16 ->
  register st !! name = None ->
  exists st' msg,
    registerName toString st X name = (st', Ok msg) /\
    viewRegisteredName toString st' name = Ok (toString X).
Proof.
  intros Hvalid Hlen Hreg.
  rewrite registerName_cases, (trim_valid name Hvalid), Hreg.
  destruct (length name <? 2) eqn:H2; [apply Nat.ltb_lt in H2; lia|].
  destruct (16 <? length name) eqn:H16; [apply Nat.ltb_lt in H16; lia|].
  simpl. eexists _, _. split; [done|].
  unfold viewRegisteredName. simpl. by rewrite lookup_insert_eq.
Qed.

(** C10, amended: [registerName] stores the owner under the trimmed name and
    the other methods look the name up as given; so in a reachable state,
    for a name that [trim] changes, [setNameData], [clearName],
    [viewNameData] and [viewRegisteredName] fail with their not-registered
    error. [updateNameData] tests its arguments before the look-up: it fails
    with [Invalid name] when the name is blank, else with the error of the
    first blank field in the order btc, eth, twitter, and with the
    not-registered error when the name and the three fields are not blank. *)
Theorem C10_only_registerName_trims st caller name :
  reachable toString JSON_stringify st ->
  trim name ≠ name ->
  (forall st' msg,
     registerName toString st caller name = (st', Ok msg) ->
     register st' !! trim name = Some caller /\ register st' !! name = None) /\
  (forall b e t,
     setNameData toString JSON_stringify st caller name b e t
       = (st, Err (Msg.NotRegistered_claimed name))) /\
  (forall b e t,
     (trim name = [] ->
      updateNameData toString JSON_stringify st caller name b e t
        = (st, Err Msg.InvalidName)) /\
     (trim name ≠ [] -> trim b = [] ->
      updateNameData toString JSON_stringify st caller name b e t
        = (st, Err Msg.Invalid_btc)) /\
     (trim name ≠ [] -> trim b ≠ [] -> trim e = [] ->
      updateNameData toString JSON_stringify st caller name b e t
        = (st, Err Msg.Invalid_eth)) /\
     (trim name ≠ [] -> trim b ≠ [] -> trim e ≠ [] -> trim t = [] ->
      updateNameData toString JSON_stringify st caller name b e t
        = (st, Err Msg.Invalid_twitter)) /\
     (trim name ≠ [] -> trim b ≠ [] -> trim e ≠ [] -> trim t ≠ [] ->
      updateNameData toString JSON_stringify st caller name b e t
        = (st, Err (Msg.NotRegistered_claimed name)))) /\
  clearName toString JSON_stringify st caller name = (st, Err Msg.NotRegistered_clear) /\
  viewNameData st name = Err (Msg.NotRegistered_claimed name) /\
  viewRegisteredName toString st name = Err (Msg.NotRegistered_view name).
Proof.
  intros Hst Hne.
  pose proof (reachable_untrimmed_unregistered _ _ st name Hst Hne) as Hreg.
  split; [|split; [|split; [|split; [|split]]]].
  - intros st' msg. rewrite registerName_cases.
    destruct (_ || _); [done|].
    destruct (register st !! trim name) eqn:Hfree; [done|].
    intros [= <- _]. simpl. split; [apply lookup_insert_eq|].
    by rewrite lookup_insert_ne.
  - intros b e t. by apply setNameData_unregistered.
  - intros b e t.
    destruct (updateNameData_guards toString JSON_stringify st caller name b e t)
      as (Hname & Hb & He & Ht).
    split; [exact Hname|]. split; [exact Hb|]. split; [exact He|]. split; [exact Ht|].
    intros. by apply updateNameData_unregistered.
  - by apply clearName_unregistered.
  - by apply viewNameData_unregistered.
  - by apply viewRegisteredName_unregistered.
Qed.

End Claims.

(** ** The properties on the example host *)

Lemma Demo_registered_reachable :
  reachable Demo.toString Demo.JSON_stringify Demo.registered.
Proof.
  exact (reachable_call Demo.toString Demo.JSON_stringify init Demo.X
           (CallRegisterName (js "alice1"))
           (reachable_init Demo.toString Demo.JSON_stringify)).
Defined.

Lemma Demo_with_data_reachable :
  reachable Demo.toString Demo.JSON_stringify Demo.with_data.
Proof.
  exact (reachable_call Demo.toString Demo.JSON_stringify Demo.registered Demo.X
           (CallSetNameData (js "alice1") (js "bc1qxy") (js "0xAbC") (js "alice_tw"))
           Demo_registered_reachable).
Defined.



(** C3 as stated fails: [bob] is not registered, and [updateNameData] with an
    empty btc field fails with the error of that field. *)
Lemma C3_updateNameData_checks_fields_first :
  register (@init Demo.Principal) !! js "bob" = None /\
  updateNameData Demo.toString Demo.JSON_stringify init Demo.X
    (js "bob") (js "") (js "0xAbC") (js "bob_tw") = (init, Err Msg.Invalid_btc) /\
  Msg.Invalid_btc ≠ Msg.NotRegistered_claimed (js "bob").
Proof. repeat split; try reflexivity; by vm_compute. Qed.

Lemma C3_witness :
  updateNameData Demo.toString Demo.JSON_stringify init Demo.X
    (js "bob") (js "bc1qxy") (js "  ") (js "")
    = (init, Err Msg.Invalid_eth) /\
  updateNameData Demo.toString Demo.JSON_stringify init Demo.X
    (js "bob") (js "bc1qxy") (js "0xAbC") (js "bob_tw")
    = (init, Err (Msg.NotRegistered_claimed (js "bob"))).
Proof.
  destruct (C3_unregistered_name Demo.toString Demo.JSON_stringify init Demo.X (js "bob"))
    as (_ & Hupdate & _); [reflexivity|].
  split.
  - destruct (Hupdate (js "bc1qxy") (js "  ") (js "")) as (_ & _ & Heth & _).
    apply Heth; by vm_compute.
  - destruct (Hupdate (js "bc1qxy") (js "0xAbC") (js "bob_tw")) as (_ & _ & _ & _ & Hlookup).
    apply Hlookup; by vm_compute.
Defined.

Lemma C4_witness :
  (registerName Demo.toString Demo.registered Demo.Y (js " alice1 ")).1 = Demo.registered /\
  (setNameData Demo.toString Demo.JSON_stringify Demo.with_data Demo.X
     (js "alice1") (js "bc1other") (js "0xDeF") (js "alice_2")).1 = Demo.with_data /\
  (updateNameData Demo.toString Demo.JSON_stringify Demo.with_data Demo.X
     (js "alice1") (js "bc1other") (js "  ") (js "alice_2")).1 = Demo.with_data /\
  (clearName Demo.toString Demo.JSON_stringify Demo.with_data Demo.Y (js "alice1")).1
    = Demo.with_data.
Proof.
  destruct (C4_error_leaves_stores_unchanged Demo.toString Demo.JSON_stringify
              Demo.registered Demo.Y) as (Hregister & _).
  destruct (C4_error_leaves_stores_unchanged Demo.toString Demo.JSON_stringify
              Demo.with_data Demo.X) as (_ & Hset & Hupdate & _).
  destruct (C4_error_leaves_stores_unchanged Demo.toString Demo.JSON_stringify
              Demo.with_data Demo.Y) as (_ & _ & _ & Hclear).
  split; [|split; [|split]].
  - apply (Hregister (js " alice1 ") _ (Msg.AlreadyTaken (js "alice1"))). reflexivity.
  - apply (Hset (js "alice1") (js "bc1other") (js "0xDeF") (js "alice_2") _
             (Msg.DataAlreadyExists (js "alice1"))). reflexivity.
  - apply (Hupdate (js "alice1") (js "bc1other") (js "  ") (js "alice_2") _
             Msg.Invalid_eth). reflexivity.
  - apply (Hclear (js "alice1") _ Msg.NotOwner_clear). reflexivity.
Defined.

Lemma C5_witness : dom (records Demo.with_data) ⊆ dom (register Demo.with_data).
Proof.
  apply (proj2 (C5_data_keys_subset Demo.toString Demo.JSON_stringify Demo.with_data)).
  exact Demo_with_data_reachable.
Defined.

(** C6 as stated fails: [X] owns [alice1], and [updateNameData] by [Y] with an
    empty btc field fails with the error of that field. *)
Lemma C6_updateNameData_checks_fields_first :
  register Demo.registered !! js "alice1" = Some Demo.X /\
  Demo.Y ≠ Demo.X /\
  updateNameData Demo.toString Demo.JSON_stringify Demo.registered Demo.Y
    (js "alice1") (js "") (js "0xAbC") (js "alice_tw")
    = (Demo.registered, Err Msg.Invalid_btc) /\
  Msg.Invalid_btc ≠ Msg.NotOwner_update.
Proof. repeat split; try reflexivity; by vm_compute. Qed.

Lemma C6_witness :
  setNameData Demo.toString Demo.JSON_stringify Demo.registered Demo.Y
    (js "alice1") (js "bc1qxy") (js "0xAbC") (js "alice_tw")
    = (Demo.registered, Err Msg.NotOwner_set) /\
  updateNameData Demo.toString Demo.JSON_stringify Demo.registered Demo.Y
    (js "alice1") (js "bc1qxy") (js "0xAbC") (js " ")
    = (Demo.registered, Err Msg.Invalid_twitter) /\
  updateNameData Demo.toString Demo.JSON_stringify Demo.registered Demo.Y
    (js "alice1") (js "bc1qxy") (js "0xAbC") (js "alice_tw")
    = (Demo.registered, Err Msg.NotOwner_update) /\
  clearName Demo.toString Demo.JSON_stringify Demo.registered Demo.Y (js "alice1")
    = (Demo.registered, Err Msg.NotOwner_clear).
Proof.
  destruct (C6_only_owner Demo.toString Demo.JSON_stringify Demo.registered
              Demo.X Demo.Y (js "alice1"))
    as (Hset & Hupdate & Hclear).
  - intros p q Hpq. exact Hpq.
  - exact Demo_registered_reachable.
  - reflexivity.
  - by vm_compute.
  - split; [apply Hset|]. split; [|split; [|exact Hclear]].
    + destruct (Hupdate (js "bc1qxy") (js "0xAbC") (js " ")) as (_ & _ & Htwitter & _).
      apply Htwitter; by vm_compute.
    + destruct (Hupdate (js "bc1qxy") (js "0xAbC") (js "alice_tw")) as (_ & _ & _ & Howner).
      apply Howner; by vm_compute.
Defined.

(** C7 as stated fails: [X] owns [alice1] and has attached data to it with
    [updateNameData]; the first [setNameData] by [X], with valid fields, fails
    with the data-already-exists error. *)
Lemma C7_first_setNameData_fails_after_update :
  let st1 := (updateNameData Demo.toString Demo.JSON_stringify Demo.registered Demo.X
                (js "alice1") (js "bc1new") (js "0xDeF") (js "alice_2")).1 in
  reachable Demo.toString Demo.JSON_stringify st1 /\
  register st1 !! js "alice1" = Some Demo.X /\
  setNameData Demo.toString Demo.JSON_stringify st1 Demo.X
    (js "alice1") (js "bc1qxy") (js "0xAbC") (js "alice_tw")
    = (st1, Err (Msg.DataAlreadyExists (js "alice1"))).
Proof.
  intros st1. split; [|split; reflexivity].
  exact (reachable_call Demo.toString Demo.JSON_stringify Demo.registered Demo.X
           (CallUpdateNameData (js "alice1") (js "bc1new") (js "0xDeF") (js "alice_2"))
           Demo_registered_reachable).
Qed.

Lemma C7_witness :
  exists st1 msg,
    setNameData Demo.toString Demo.JSON_stringify Demo.registered Demo.X
      (js "alice1") (js " bc1qxy ") (js "0xAbC") (js "alice_tw") = (st1, Ok msg) /\
    register st1 = register Demo.registered /\
    records st1 !! js "alice1" = Some (mkName (js "bc1qxy") (js "0xAbC") (js "alice_tw")) /\
    setNameData Demo.toString Demo.JSON_stringify st1 Demo.X
      (js "alice1") (js "bc1other") (js "0xDeF") (js "alice_2")
      = (st1, Err (Msg.DataAlreadyExists (js "alice1"))).
Proof.
  apply (C7_setNameData_twice Demo.toString Demo.JSON_stringify Demo.registered Demo.X
           (js "alice1") (js " bc1qxy ") (js "0xAbC") (js "alice_tw")
           (js "bc1other") (js "0xDeF") (js "alice_2"));
    solve [reflexivity | by vm_compute | unfold within_value_bound; vm_compute; lia].
Defined.

Lemma C8_witness :
  let st' := (clearName Demo.toString Demo.JSON_stringify Demo.with_data Demo.X
                (js "alice1")).1 in
  register st' !! js "alice1" = None /\
  records st' !! js "alice1" = None /\
  viewRegisteredName Demo.toString st' (js "alice1")
    = Err (Msg.NotRegistered_view (js "alice1")) /\
  viewNameData st' (js "alice1") = Err (Msg.NotRegistered_claimed (js "alice1")) /\
  forall Y, exists st'' msg',
    registerName Demo.toString st' Y (js "alice1") = (st'', Ok msg') /\
    register st'' !! js "alice1" = Some Y.
Proof.
  intros st'.
  apply (C8_clearName_frees_name Demo.toString Demo.JSON_stringify Demo.with_data Demo.X
           (js "alice1") st'
           (js "'alice1' with data: "
              ++ Demo.JSON_stringify
                   (OfRemoved (Some (mkName (js "bc1qxy") (js "0xAbC") (js "alice_tw"))))
              ++ js " has been cleared from storage")).
  - exact Demo_with_data_reachable.
  - reflexivity.
Defined.

Lemma C9_witness :
  exists st' msg,
    registerName Demo.toString init Demo.X (js "alice1") = (st', Ok msg) /\
    viewRegisteredName Demo.toString st' (js "alice1") = Ok (Demo.toString Demo.X).
Proof.
  apply (C9_register_then_view Demo.toString init Demo.X (js "alice1"));
    [reflexivity | simpl; lia | reflexivity].
Defined.

(** C10 as stated fails: [alice1] is registered, and [updateNameData] on
    [alice1] with a leading space and an empty btc field fails with the error
    of that field; on a name of one space it fails with [Invalid name]. *)
Lemma C10_updateNameData_checks_before_lookup :
  register Demo.registered !! trim (js " alice1") = Some Demo.X /\
  updateNameData Demo.toString Demo.JSON_stringify Demo.registered Demo.X
    (js " alice1") (js "") (js "0xAbC") (js "alice_tw")
    = (Demo.registered, Err Msg.Invalid_btc) /\
  Msg.Invalid_btc ≠ Msg.NotRegistered_claimed (js " alice1") /\
  updateNameData Demo.toString Demo.JSON_stringify Demo.registered Demo.X
    (js " ") (js "bc1qxy") (js "0xAbC") (js "alice_tw")
    = (Demo.registered, Err Msg.InvalidName) /\
  Msg.InvalidName ≠ Msg.NotRegistered_claimed (js " ").
Proof. repeat split; try reflexivity; by vm_compute. Qed.

Lemma C10_witness :
  setNameData Demo.toString Demo.JSON_stringify Demo.registered Demo.X
    (js " alice1") (js "bc1qxy") (js "0xAbC") (js "alice_tw")
    = (Demo.registered, Err (Msg.NotRegistered_claimed (js " alice1"))) /\
  updateNameData Demo.toString Demo.JSON_stringify Demo.registered Demo.X
    (js " alice1") (js "") (js "0xAbC") (js "")
    = (Demo.registered, Err Msg.Invalid_btc) /\
  updateNameData Demo.toString Demo.JSON_stringify Demo.registered Demo.X
    (js " alice1") (js "bc1qxy") (js "0xAbC") (js "alice_tw")
    = (Demo.registered, Err (Msg.NotRegistered_claimed (js " alice1"))) /\
  viewRegisteredName Demo.toString Demo.registered (js " alice1")
    = Err (Msg.NotRegistered_view (js " alice1")).
Proof.
  destruct (C10_only_registerName_trims Demo.toString Demo.JSON_stringify
              Demo.registered Demo.X (js " alice1"))
    as (_ & Hset & Hupdate & _ & _ & Hview).
  - exact Demo_registered_reachable.
  - by vm_compute.
  - split; [apply Hset|]. split; [|split; [|exact Hview]].
    + destruct (Hupdate (js "") (js "0xAbC") (js "")) as (_ & Hbtc & _).
      apply Hbtc; by vm_compute.
    + destruct (Hupdate (js "bc1qxy") (js "0xAbC") (js "alice_tw"))
        as (_ & _ & _ & _ & Hlookup).
      apply Hlookup; by vm_compute.
Defined.

(** ** Further properties of the methods *)

Section Registration.
Context {Principal : Type}.
Context (toString : Principal -> jsstring).

Implicit Types (st : @State Principal) (caller owner : Principal).

(** [registerName] never answers with its format error, whatever the input
    and the state are. *)
Theorem registerName_never_InvalidFormat st caller _name :
  (registerName toString st caller _name).2 ≠ Err Msg.InvalidFormat.
Proof.
  rewrite registerName_cases.
  destruct (_ || _); [by vm_compute|].
  destruct (register st !! trim _name); [|done].
  simpl. intros [= Heq]. apply (f_equal (@rev _)) in Heq.
  unfold Msg.AlreadyTaken in Heq. rewrite rev_app_distr in Heq.
  by vm_compute in Heq.
Qed.

(** A name whose trimmed form has fewer than 2 or more than 16 code units, an
    empty or blank one among them, is refused with the length error and
    nothing is stored. *)
Theorem registerName_InvalidLength st caller _name :
  length (trim _name) < 2 \/ 16 < length (trim _name) ->
  registerName toString st caller _name = (st, Err Msg.InvalidLength).
Proof.
  intros Hlen. rewrite registerName_cases.
  destruct (length (trim _name) <? 2) eqn:H2; [done|].
  destruct (16 <? length (trim _name)) eqn:H16; [done|].
  apply Nat.ltb_ge in H2, H16. lia.
Qed.

(** [registerName] succeeds exactly when the trimmed name has 2 to 16 code
    units and is not registered. *)
Theorem registerName_succeeds_iff st caller _name :
  (exists st' msg, registerName toString st caller _name = (st', Ok msg)) <->
  2 <= length (trim _name) <= 16 /\ register st !! trim _name = None.
Proof.
  split.
  - intros (st' & msg & Hrun). rewrite registerName_cases in Hrun.
    destruct (length (trim _name) <? 2) eqn:H2; [done|].
    destruct (16 <? length (trim _name)) eqn:H16; [done|].
    apply Nat.ltb_ge in H2, H16.
    destruct (register st !! trim _name); [done|]. split; [lia | done].
  - intros [Hlen Hfree].
    rewrite (registerName_format_unchecked toString st caller _name Hlen Hfree). eauto.
Qed.

(** First come, first served: once [X] has registered a name, [registerName]
    by anyone for a name with the same trimmed form fails with the
    already-taken error, and [X] stays the owner. *)
Theorem registerName_again_AlreadyTaken st X Y _name _name' st1 msg :
  registerName toString st X _name = (st1, Ok msg) ->
  trim _name' = trim _name ->
  register st1 !! trim _name = Some X /\
  registerName toString st1 Y _name' = (st1, Err (Msg.AlreadyTaken (trim _name))).
Proof.
  intros Hrun Htrim. rewrite registerName_cases in Hrun.
  destruct (_ || _) eqn:Hlen; [done|].
  destruct (register st !! trim _name); [done|].
  injection Hrun as <- _.
  split; [simpl; apply lookup_insert_eq|].
  rewrite registerName_cases, Htrim, Hlen. simpl. by rewrite lookup_insert_eq.
Qed.

(** White space around the name changes nothing for [registerName]. *)
Theorem registerName_trimmed_argument st caller _name :
  registerName toString st caller (trim _name) = registerName toString st caller _name.
Proof. by rewrite !registerName_cases, trim_idemp. Qed.

End Registration.

Lemma length_eqb_false_inv (s : jsstring) : (length s =? 0) = false -> s ≠ [].
Proof. by destruct s. Qed.

Lemma blank_guard_inv (s : jsstring) :
  negb (truthy_string s) || negb (truthy_string (trim s)) = false -> trim s ≠ [].
Proof. intros H Hs. rewrite Hs in H. simpl in H. by rewrite orb_true_r in H. Qed.

Section Effects.
Context {Principal : Type}.
Context (toString : Principal -> jsstring).
Context (JSON_stringify : JSONArg -> jsstring).

Implicit Types (st : @State Principal) (caller owner : Principal).

Lemma owner_guard_inv caller owner :
  bool_decide (toString caller ≠ toString owner) = false ->
  toString caller = toString owner.
Proof.
  intros H%bool_decide_eq_false.
  destruct (decide (toString caller = toString owner)); [done | by destruct H].
Qed.

(** What a call can do to the state: nothing; or, for [registerName], enter
    the caller under a free key; or, for the two data methods called by the
    owner, put a record of checked fields under the key; or, for [clearName]
    called by the owner, remove the key from both maps. *)
Lemma run_effect st caller c :
  let st' := (run toString JSON_stringify st caller c).1 in
  let k := key_of c in
  st' = st
  \/ ((exists _name, c = CallRegisterName _name) /\ register st !! k = None /\
      2 <= length k <= 16 /\
      st' = {| register := <[k := caller]> (register st); records := records st |})
  \/ (exists owner d,
        register st !! k = Some owner /\ toString caller = toString owner /\
        field_checked (btcAddress d) /\ field_checked (ethAddress d) /\
        field_checked (twitterUsername d) /\
        st' = {| register := register st; records := <[k := d]> (records st) |})
  \/ (exists owner,
        c = CallClearName k /\
        register st !! k = Some owner /\ toString caller = toString owner /\
        st' = {| register := delete k (register st); records := delete k (records st) |}).
Proof.
  destruct c as [n|n b e t|n b e t|n]; simpl.
  - rewrite registerName_cases.
    destruct (length (trim n) <? 2) eqn:H2; [by left|].
    destruct (16 <? length (trim n)) eqn:H16; [by left|].
    apply Nat.ltb_ge in H2, H16. simpl.
    destruct (register st !! trim n) eqn:Hn; [by left|].
    right; left. repeat split; eauto; try lia.
  - unfold setNameData.
    destruct (register st !! n) as [owner|] eqn:Hn; [|by left].
    destruct (bool_decide (toString caller ≠ _)) eqn:Hown; [by left|].
    destruct (bool_decide (is_Some _)); [by left|].
    destruct (length (trim b) =? 0) eqn:Hb; [by left|].
    destruct (length (trim e) =? 0) eqn:He; [by left|].
    destruct (length (trim t) =? 0) eqn:Ht; [by left|].
    right; right; left. exists owner, (mkName (trim b) (trim e) (trim t)).
    split; [done|]. split; [by apply owner_guard_inv|]. simpl.
    repeat split; auto using trim_idemp, length_eqb_false_inv.
  - unfold updateNameData.
    destruct (negb (truthy_string n) || _); [by left|].
    destruct (negb (truthy_string b) || _); [by left|].
    destruct (negb (truthy_string e) || _); [by left|].
    destruct (negb (truthy_string t) || _); [by left|].
    destruct (register st !! n) as [owner|] eqn:Hn; [|by left].
    destruct (bool_decide (toString caller ≠ _)) eqn:Hown; [by left|].
    destruct (length (trim b) =? 0) eqn:Hb; [by left|].
    destruct (length (trim e) =? 0) eqn:He; [by left|].
    destruct (length (trim t) =? 0) eqn:Ht; [by left|].
    right; right; left. exists owner, (mkName (trim b) (trim e) (trim t)).
    split; [done|]. split; [by apply owner_guard_inv|]. simpl.
    repeat split; auto using trim_idemp, length_eqb_false_inv.
  - unfold clearName.
    destruct (register st !! n) as [owner|] eqn:Hn; [|by left].
    destruct (bool_decide (toString caller ≠ _)) eqn:Hown; [by left|].
    right; right; right. exists owner. eauto using owner_guard_inv.
Qed.

End Effects.

Section Ownership.
Context {Principal : Type}.
Context (toString : Principal -> jsstring).
Context (JSON_stringify : JSONArg -> jsstring).

Implicit Types (st : @State Principal) (caller owner : Principal).

(** A call touches one key only: every other name keeps its owner and its
    data. *)
Theorem call_leaves_other_names st caller c k :
  k ≠ key_of c ->
  register (run toString JSON_stringify st caller c).1 !! k = register st !! k /\
  records (run toString JSON_stringify st caller c).1 !! k = records st !! k.
Proof.
  intros Hk.
  destruct (run_effect toString JSON_stringify st caller c)
    as [-> | [(_ & _ & _ & ->) | [(o & d & _ & _ & _ & _ & _ & ->) | (o & _ & _ & _ & ->)]]];
    simpl; by rewrite ?lookup_insert_ne, ?lookup_delete_ne.
Qed.

(** A caller whose display string is not the owner's cannot change what is
    stored for the name, whichever method is called with whichever
    arguments. *)
Theorem non_owner_changes_nothing st caller owner name c :
  register st !! name = Some owner ->
  toString caller ≠ toString owner ->
  register (run toString JSON_stringify st caller c).1 !! name = Some owner /\
  records (run toString JSON_stringify st caller c).1 !! name = records st !! name.
Proof.
  intros Hreg Hne.
  assert (Hkey : forall o, register st !! key_of c = Some o ->
                           toString caller = toString o -> name ≠ key_of c).
  { intros o Ho Heq ->. congruence. }
  destruct (run_effect toString JSON_stringify st caller c)
    as [-> | [(_ & Hfree & _ & ->) | [(o & d & Ho & Heq & _ & _ & _ & ->)
                                     | (o & _ & Ho & Heq & ->)]]]; simpl.
  - done.
  - rewrite lookup_insert_ne; [done | congruence].
  - by rewrite lookup_insert_ne by (symmetry; eauto).
  - by rewrite !lookup_delete_ne by (symmetry; eauto).
Qed.

(** Ownership is never transferred: after any call by anyone the name still
    has the owner it had, unless the call was [clearName] on that name by a
    caller with the owner's display string, which removes the name from both
    maps. *)
Theorem owner_kept_or_cleared st caller owner name c :
  register st !! name = Some owner ->
  register (run toString JSON_stringify st caller c).1 !! name = Some owner
  \/ (c = CallClearName name /\ toString caller = toString owner /\
      register (run toString JSON_stringify st caller c).1 !! name = None /\
      records (run toString JSON_stringify st caller c).1 !! name = None).
Proof.
  intros Hreg.
  destruct (run_effect toString JSON_stringify st caller c)
    as [-> | [(_ & Hfree & _ & ->) | [(o & d & _ & _ & _ & _ & _ & ->)
                                     | (o & Hc & Ho & Heq & ->)]]]; simpl.
  - by left.
  - left. rewrite lookup_insert_ne; [done | congruence].
  - by left.
  - destruct (decide (key_of c = name)) as [Hk|Hk].
    + right. rewrite Hk in *. rewrite !lookup_delete_eq.
      repeat split; congruence.
    + left. by rewrite lookup_delete_ne.
Qed.

(** The data methods never change who owns what, and [registerName] never
    changes the data. *)
Theorem methods_keep_the_other_map st caller name b e t :
  register (setNameData toString JSON_stringify st caller name b e t).1 = register st /\
  register (updateNameData toString JSON_stringify st caller name b e t).1 = register st /\
  records (registerName toString st caller name).1 = records st.
Proof.
  split; [|split].
  - destruct (run_effect toString JSON_stringify st caller (CallSetNameData name b e t))
      as [H | [([? [=]] & _) | [(o & d & _ & _ & _ & _ & _ & H) | (o & [=] & _)]]];
      simpl in H; by rewrite H.
  - destruct (run_effect toString JSON_stringify st caller (CallUpdateNameData name b e t))
      as [H | [([? [=]] & _) | [(o & d & _ & _ & _ & _ & _ & H) | (o & [=] & _)]]];
      simpl in H; by rewrite H.
  - rewrite registerName_cases. by repeat case_match.
Qed.

(** In every reachable state a registered name is trimmed and has 2 to 16
    code units, and the three fields of every stored record are trimmed and
    not empty. *)
Theorem reachable_stored_values_checked st :
  reachable toString JSON_stringify st ->
  (forall k owner, register st !! k = Some owner ->
     trim k = k /\ 2 <= length k <= 16) /\
  (forall k d, records st !! k = Some d ->
     (btcAddress d ≠ [] /\ trim (btcAddress d) = btcAddress d) /\
     (ethAddress d ≠ [] /\ trim (ethAddress d) = ethAddress d) /\
     (twitterUsername d ≠ [] /\ trim (twitterUsername d) = twitterUsername d)).
Proof.
  intros Hst. split.
  - intros k owner Hk. apply (reachable_keys_checked toString JSON_stringify st Hst). eauto.
  - change (records_checked st).
    induction Hst as [|st caller c _ IH].
    + intros k d Hk. simpl in Hk. by rewrite lookup_empty in Hk.
    + destruct (run_effect toString JSON_stringify st caller c)
        as [-> | [(_ & _ & _ & ->) | [(o & d & _ & _ & Hb & He & Ht & ->)
                                     | (o & _ & _ & _ & ->)]]]; try done.
      * intros k d' Hk. simpl in Hk.
        destruct (decide (k = key_of c)) as [->|Hne].
        -- rewrite lookup_insert_eq in Hk. by injection Hk as <-.
        -- rewrite lookup_insert_ne in Hk by done. by eapply IH.
      * intros k d' Hk. simpl in Hk.
        destruct (decide (k = key_of c)) as [->|Hne].
        -- by rewrite lookup_delete_eq in Hk.
        -- rewrite lookup_delete_ne in Hk by done. by eapply IH.
Qed.

End Ownership.

Section Data.
Context {Principal : Type}.
Context (toString : Principal -> jsstring).
Context (JSON_stringify : JSONArg -> jsstring).

Implicit Types (st : @State Principal) (caller owner : Principal).

Lemma viewNameData_stored st name owner d :
  register st !! name = Some owner ->
  records st !! name = Some d ->
  viewNameData st name = Ok d.
Proof.
  intros Hreg Hrec. unfold viewNameData, isNameAvailable, getNameData.
  rewrite Hreg, Hrec. by rewrite bool_decide_eq_true_2.
Qed.

Lemma viewNameData_no_data st name owner :
  register st !! name = Some owner ->
  records st !! name = None ->
  viewNameData st name = Err (Msg.NoDataAttached name).
Proof.
  intros Hreg Hrec. unfold viewNameData, isNameAvailable.
  rewrite Hreg, Hrec. by rewrite bool_decide_eq_false_2 by (by intros [? ?]).
Qed.

(** White space around the three fields changes nothing for the data
    methods. *)
Theorem data_methods_trimmed_fields st caller name b e t :
  setNameData toString JSON_stringify st caller name (trim b) (trim e) (trim t)
    = setNameData toString JSON_stringify st caller name b e t /\
  updateNameData toString JSON_stringify st caller name (trim b) (trim e) (trim t)
    = updateNameData toString JSON_stringify st caller name b e t.
Proof.
  split.
  - unfold setNameData. by rewrite !trim_idemp.
  - unfold updateNameData. rewrite !trim_idemp.
    destruct (negb (truthy_string name) || _); [done|].
    destruct (decide (trim b = [])) as [Hb|Hb].
    { rewrite Hb. simpl. by rewrite orb_true_r. }
    rewrite (blank_guard b Hb), (truthy_string_nonempty _ Hb). simpl.
    destruct (decide (trim e = [])) as [He|He].
    { rewrite He. simpl. by rewrite orb_true_r. }
    rewrite (blank_guard e He), (truthy_string_nonempty _ He). simpl.
    destruct (decide (trim t = [])) as [Ht|Ht].
    { rewrite Ht. simpl. by rewrite orb_true_r. }
    by rewrite (blank_guard t Ht), (truthy_string_nonempty _ Ht).
Qed.

(** [setNameData] succeeds only when the name is registered to an owner with
    the caller's display string, has no data yet, and the three fields are
    not blank; when that holds and the record of the trimmed fields is within
    the bound of the map, it succeeds and stores that record. *)
Theorem setNameData_success_conditions st caller name b e t :
  (forall st' msg,
     setNameData toString JSON_stringify st caller name b e t = (st', Ok msg) ->
     (exists owner, register st !! name = Some owner /\ toString caller = toString owner) /\
     records st !! name = None /\
     trim b ≠ [] /\ trim e ≠ [] /\ trim t ≠ []) /\
  ((exists owner, register st !! name = Some owner /\ toString caller = toString owner) ->
   records st !! name = None ->
   trim b ≠ [] -> trim e ≠ [] -> trim t ≠ [] ->
   within_value_bound (mkName (trim b) (trim e) (trim t)) ->
   exists msg,
     setNameData toString JSON_stringify st caller name b e t =
       ({| register := register st;
           records := <[name := mkName (trim b) (trim e) (trim t)]> (records st) |},
        Ok msg)).
Proof.
  unfold setNameData. split.
  - intros st' msg Hrun.
    destruct (register st !! name) as [owner|]; [|done].
    destruct (bool_decide (toString caller ≠ _)) eqn:Hown; [done|].
    destruct (bool_decide (is_Some _)) eqn:Hrec; [done|].
    destruct (length (trim b) =? 0) eqn:Hb; [done|].
    destruct (length (trim e) =? 0) eqn:He; [done|].
    destruct (length (trim t) =? 0) eqn:Ht; [done|].
    split; [exists owner; eauto using owner_guard_inv|].
    split; [|repeat split; by apply length_eqb_false_inv].
    apply bool_decide_eq_false in Hrec. by apply eq_None_not_Some.
  - intros (owner & -> & Hown) Hrec Hb He Ht _.
    rewrite (owner_guard_pass toString _ _ Hown), Hrec.
    rewrite bool_decide_eq_false_2 by (by intros [? ?]).
    rewrite !length_eqb_nonempty by done. eauto.
Qed.

Lemma updateNameData_Ok_inv st caller name b e t st' msg :
  updateNameData toString JSON_stringify st caller name b e t = (st', Ok msg) ->
  (exists owner, register st !! name = Some owner /\ toString caller = toString owner) /\
  trim name ≠ [] /\ trim b ≠ [] /\ trim e ≠ [] /\ trim t ≠ [].
Proof.
  intros Hrun. unfold updateNameData in Hrun.
  destruct (negb (truthy_string name) || _) eqn:Hn; [done|].
  destruct (negb (truthy_string b) || _) eqn:Hb; [done|].
  destruct (negb (truthy_string e) || _) eqn:He; [done|].
  destruct (negb (truthy_string t) || _) eqn:Ht; [done|].
  destruct (register st !! name) as [owner|]; [|done].
  destruct (bool_decide (toString caller ≠ _)) eqn:Hown; [done|].
  split; [exists owner; eauto using owner_guard_inv|].
  repeat split; by apply blank_guard_inv.
Qed.

(** [updateNameData] succeeds only when the name is not blank and is
    registered to an owner with the caller's display string, and the three
    fields are not blank; when that holds and the record of the trimmed
    fields is within the bound of the map, it succeeds and stores that
    record, whether data was attached already or not. *)
Theorem updateNameData_success_conditions st caller name b e t :
  (forall st' msg,
     updateNameData toString JSON_stringify st caller name b e t = (st', Ok msg) ->
     (exists owner, register st !! name = Some owner /\ toString caller = toString owner) /\
     trim name ≠ [] /\ trim b ≠ [] /\ trim e ≠ [] /\ trim t ≠ []) /\
  ((exists owner, register st !! name = Some owner /\ toString caller = toString owner) ->
   trim name ≠ [] -> trim b ≠ [] -> trim e ≠ [] -> trim t ≠ [] ->
   within_value_bound (mkName (trim b) (trim e) (trim t)) ->
   exists msg,
     updateNameData toString JSON_stringify st caller name b e t =
       ({| register := register st;
           records := <[name := mkName (trim b) (trim e) (trim t)]> (records st) |},
        Ok msg)).
Proof.
  split.
  - intros st' msg Hrun. by eapply updateNameData_Ok_inv.
  - intros (owner & Hreg & Hown) Hn Hb He Ht _.
    rewrite updateNameData_cases, Hreg, (owner_guard_pass toString _ _ Hown) by done.
    eauto.
Qed.

(** After a [setNameData] that succeeded, [viewNameData] returns the three
    fields trimmed. *)
Theorem setNameData_then_viewNameData st caller name b e t st' msg :
  setNameData toString JSON_stringify st caller name b e t = (st', Ok msg) ->
  viewNameData st' name = Ok (mkName (trim b) (trim e) (trim t)).
Proof.
  unfold setNameData. intros Hrun.
  destruct (register st !! name) as [owner|] eqn:Hreg; [|done].
  repeat (case_match; try done). injection Hrun as <- _.
  apply (viewNameData_stored _ name owner); [done | apply lookup_insert_eq].
Qed.

(** After an [updateNameData] that succeeded, [viewNameData] returns the
    three fields trimmed, whatever was stored before, and the same call again
    succeeds and leaves the state as it is. *)
Theorem updateNameData_then_viewNameData st caller name b e t st' msg :
  updateNameData toString JSON_stringify st caller name b e t = (st', Ok msg) ->
  viewNameData st' name = Ok (mkName (trim b) (trim e) (trim t)) /\
  exists msg',
    updateNameData toString JSON_stringify st' caller name b e t = (st', Ok msg').
Proof.
  intros Hrun.
  destruct (updateNameData_Ok_inv st caller name b e t st' msg Hrun)
    as ((owner & Hreg & Hown) & Hn & Hb & He & Ht).
  rewrite updateNameData_cases, Hreg, (owner_guard_pass toString _ _ Hown) in Hrun by done.
  injection Hrun as <- _. split.
  - apply (viewNameData_stored _ name owner); [done | apply lookup_insert_eq].
  - rewrite updateNameData_cases by done. simpl.
    rewrite Hreg, (owner_guard_pass toString _ _ Hown), insert_insert_eq. eauto.
Qed.

(** [updateNameData] attaches data to a name that has none, after which
    [setNameData] is refused with the data-already-exists error. *)
Theorem updateNameData_then_setNameData st caller name b e t b' e' t' st' msg :
  updateNameData toString JSON_stringify st caller name b e t = (st', Ok msg) ->
  setNameData toString JSON_stringify st' caller name b' e' t'
    = (st', Err (Msg.DataAlreadyExists name)).
Proof.
  intros Hrun.
  destruct (updateNameData_Ok_inv st caller name b e t st' msg Hrun)
    as ((owner & Hreg & Hown) & Hn & Hb & He & Ht).
  rewrite updateNameData_cases, Hreg, (owner_guard_pass toString _ _ Hown) in Hrun by done.
  injection Hrun as <- _. unfold setNameData. simpl.
  rewrite Hreg, (owner_guard_pass toString _ _ Hown), lookup_insert_eq.
  by rewrite bool_decide_eq_true_2.
Qed.

(** [viewNameData] has three outcomes, decided by the two maps: the
    not-registered error, the no-data error, or the attached record; the
    look-up error of [getNameData] is never returned. *)
Theorem viewNameData_outcomes st name :
  (register st !! name = None /\
   viewNameData st name = Err (Msg.NotRegistered_claimed name))
  \/ (is_Some (register st !! name) /\ records st !! name = None /\
      viewNameData st name = Err (Msg.NoDataAttached name))
  \/ (exists d, is_Some (register st !! name) /\ records st !! name = Some d /\
      viewNameData st name = Ok d).
Proof.
  destruct (register st !! name) as [owner|] eqn:Hreg.
  - destruct (records st !! name) as [d|] eqn:Hrec.
    + right; right. exists d. eauto using viewNameData_stored.
    + right; left. eauto using viewNameData_no_data.
  - left. eauto using viewNameData_unregistered.
Qed.

(** In a reachable state [viewNameData] returns a record exactly when that
    record is attached to the name. *)
Theorem viewNameData_Ok_iff st name d :
  reachable toString JSON_stringify st ->
  viewNameData st name = Ok d <-> records st !! name = Some d.
Proof.
  intros Hst.
  pose proof (proj1 (data_owned_lookup st)
                (reachable_data_owned toString JSON_stringify st Hst) name) as Hown.
  split.
  - unfold viewNameData, isNameAvailable, getNameData.
    destruct (register st !! name); [|done].
    destruct (records st !! name) as [d'|].
    + rewrite bool_decide_eq_true_2 by eauto. simpl. congruence.
    + by rewrite bool_decide_eq_false_2 by (by intros [? ?]).
  - intros Hrec. destruct Hown as [owner Hreg]; [by eauto|].
    by apply (viewNameData_stored _ name owner).
Qed.

End Data.

Section Listing.
Context {Principal : Type}.
Context (toString : Principal -> jsstring).
Context (JSON_stringify : JSONArg -> jsstring).

Implicit Types (st : @State Principal) (caller owner : Principal).

(** [viewAllNames] fails, with [No names found.], exactly on an empty
    register; otherwise it lists the registered names and only them, each
    once. *)
Theorem viewAllNames_lists_register st :
  (viewAllNames st = Err (js "No names found.") <-> register st = ∅) /\
  (forall keys, viewAllNames st = Ok keys ->
     NoDup keys /\
     (forall k, k ∈ keys <-> is_Some (register st !! k)) /\
     length keys = size (register st) /\
     register st ≠ ∅).
Proof.
  unfold viewAllNames. rewrite length_fmap, length_map_to_list.
  destruct (size (register st) =? 0) eqn:Hsize.
  - apply Nat.eqb_eq, map_size_empty_iff in Hsize. split; [done|]. by intros keys.
  - apply Nat.eqb_neq in Hsize.
    assert (Hne : register st ≠ ∅) by (by intros ?%map_size_empty_iff).
    split; [split; [done | by intros ?]|].
    intros keys [= <-]. split; [apply NoDup_fst_map_to_list|].
    split; [|by rewrite length_fmap, length_map_to_list].
    intros k. rewrite list_elem_of_fmap. split.
    + intros ([k' v] & -> & Hin). apply elem_of_map_to_list in Hin. by eauto.
    + intros [v Hv]. exists (k, v). split; [done|]. by apply elem_of_map_to_list.
Qed.

(** After a [registerName] that succeeded, [viewAllNames] succeeds, lists the
    trimmed name, and lists one name more than were registered before. *)
Theorem registerName_then_viewAllNames st caller _name st' msg :
  registerName toString st caller _name = (st', Ok msg) ->
  exists keys,
    viewAllNames st' = Ok keys /\ trim _name ∈ keys /\
    length keys = S (size (register st)).
Proof.
  intros Hrun. rewrite registerName_cases in Hrun.
  destruct (_ || _); [done|].
  destruct (register st !! trim _name) eqn:Hfree; [done|].
  injection Hrun as <- _.
  unfold viewAllNames. simpl register.
  rewrite length_fmap, length_map_to_list, (map_size_insert_None _ _ _ Hfree).
  simpl. eexists. split; [done|]. split.
  - apply list_elem_of_fmap. exists (trim _name, caller).
    split; [done|]. apply elem_of_map_to_list, lookup_insert_eq.
  - by rewrite length_fmap, length_map_to_list, (map_size_insert_None _ _ _ Hfree).
Qed.

(** In a reachable state, registering a name and clearing it again gives
    back the state there was. *)
Theorem registerName_then_clearName st X _name st1 msg :
  reachable toString JSON_stringify st ->
  registerName toString st X _name = (st1, Ok msg) ->
  exists msg',
    clearName toString JSON_stringify st1 X (trim _name) = (st, Ok msg').
Proof.
  intros Hst Hrun. rewrite registerName_cases in Hrun.
  destruct (_ || _); [done|].
  destruct (register st !! trim _name) eqn:Hfree; [done|].
  injection Hrun as <- _.
  assert (Hnodata : records st !! trim _name = None).
  { apply eq_None_not_Some. intros Hsome.
    apply (proj1 (data_owned_lookup st)
             (reachable_data_owned toString JSON_stringify st Hst)) in Hsome.
    rewrite Hfree in Hsome. by destruct Hsome. }
  unfold clearName. simpl.
  rewrite lookup_insert_eq, (owner_guard_pass toString X X eq_refl).
  rewrite delete_insert_eq, !delete_id by done.
  destruct st. eauto.
Qed.

(** A name that was cleared starts afresh: registered again, by anyone, it
    has no data, whatever was attached to it before. *)
Theorem clearName_then_registerName_no_data st X Y name st1 msg :
  reachable toString JSON_stringify st ->
  clearName toString JSON_stringify st X name = (st1, Ok msg) ->
  exists st2 msg',
    registerName toString st1 Y name = (st2, Ok msg') /\
    records st2 !! name = None /\
    viewNameData st2 name = Err (Msg.NoDataAttached name).
Proof.
  intros Hst Hclear. unfold clearName in Hclear.
  destruct (register st !! name) as [owner|] eqn:Hreg; [|done].
  destruct (bool_decide _); [done|].
  injection Hclear as <- _.
  destruct (reachable_keys_checked toString JSON_stringify st Hst name)
    as [Htrim Hlen]; [by eauto|].
  rewrite registerName_format_unchecked; rewrite Htrim; simpl;
    [|done|apply lookup_delete_eq].
  eexists _, _. split; [done|]. simpl.
  split; [apply lookup_delete_eq|].
  apply (viewNameData_no_data _ name Y); simpl;
    [apply lookup_insert_eq | apply lookup_delete_eq].
Qed.

End Listing.

(** ** The further properties on the example host *)

Lemma registerName_InvalidLength_witness :
  registerName Demo.toString Demo.registered Demo.Y (js "  a ")
    = (Demo.registered, Err Msg.InvalidLength).
Proof.
  apply (registerName_InvalidLength Demo.toString Demo.registered Demo.Y (js "  a ")).
  left. vm_compute. lia.
Defined.

Lemma registerName_again_AlreadyTaken_witness :
  register Demo.registered !! trim (js "alice1") = Some Demo.X /\
  registerName Demo.toString Demo.registered Demo.Y (js " alice1 ")
    = (Demo.registered, Err (Msg.AlreadyTaken (trim (js "alice1")))).
Proof.
  apply (registerName_again_AlreadyTaken Demo.toString init Demo.X Demo.Y
           (js "alice1") (js " alice1 ") Demo.registered
           (js "alice1 now maps to 2vxsx-fae")); reflexivity.
Defined.

Lemma call_leaves_other_names_witness :
  register (run Demo.toString Demo.JSON_stringify Demo.with_data Demo.X
              (CallClearName (js "alice1"))).1 !! js "bob"
    = register Demo.with_data !! js "bob" /\
  records (run Demo.toString Demo.JSON_stringify Demo.with_data Demo.X
             (CallClearName (js "alice1"))).1 !! js "bob"
    = records Demo.with_data !! js "bob".
Proof.
  apply (call_leaves_other_names Demo.toString Demo.JSON_stringify Demo.with_data Demo.X
           (CallClearName (js "alice1")) (js "bob")).
  by vm_compute.
Defined.

Lemma non_owner_changes_nothing_witness :
  register (run Demo.toString Demo.JSON_stringify Demo.with_data Demo.Y
              (CallUpdateNameData (js "alice1") (js "bc1other") (js "0xDeF") (js "mallory"))).1
    !! js "alice1" = Some Demo.X /\
  records (run Demo.toString Demo.JSON_stringify Demo.with_data Demo.Y
             (CallUpdateNameData (js "alice1") (js "bc1other") (js "0xDeF") (js "mallory"))).1
    !! js "alice1" = records Demo.with_data !! js "alice1".
Proof.
  apply (non_owner_changes_nothing Demo.toString Demo.JSON_stringify Demo.with_data
           Demo.Y Demo.X (js "alice1")); [reflexivity | by vm_compute].
Defined.

Lemma owner_kept_or_cleared_witness :
  register (run Demo.toString Demo.JSON_stringify Demo.with_data Demo.X
              (CallClearName (js "alice1"))).1 !! js "alice1" = Some Demo.X
  \/ (CallClearName (js "alice1") = CallClearName (js "alice1") /\
      Demo.toString Demo.X = Demo.toString Demo.X /\
      register (run Demo.toString Demo.JSON_stringify Demo.with_data Demo.X
                  (CallClearName (js "alice1"))).1 !! js "alice1" = None /\
      records (run Demo.toString Demo.JSON_stringify Demo.with_data Demo.X
                 (CallClearName (js "alice1"))).1 !! js "alice1" = None).
Proof.
  apply (owner_kept_or_cleared Demo.toString Demo.JSON_stringify Demo.with_data
           Demo.X Demo.X (js "alice1") (CallClearName (js "alice1"))).
  reflexivity.
Defined.

Lemma reachable_stored_values_checked_witness :
  (forall k owner, register Demo.with_data !! k = Some owner ->
     trim k = k /\ 2 <= length k <= 16) /\
  (forall k d, records Demo.with_data !! k = Some d ->
     (btcAddress d ≠ [] /\ trim (btcAddress d) = btcAddress d) /\
     (ethAddress d ≠ [] /\ trim (ethAddress d) = ethAddress d) /\
     (twitterUsername d ≠ [] /\ trim (twitterUsername d) = twitterUsername d)).
Proof.
  apply (reachable_stored_values_checked Demo.toString Demo.JSON_stringify Demo.with_data).
  exact Demo_with_data_reachable.
Defined.

Lemma setNameData_then_viewNameData_witness :
  viewNameData Demo.with_data (js "alice1")
    = Ok (mkName (trim (js "bc1qxy")) (trim (js "0xAbC")) (trim (js "alice_tw"))).
Proof.
  apply (setNameData_then_viewNameData Demo.toString Demo.JSON_stringify
           Demo.registered Demo.X (js "alice1") (js "bc1qxy") (js "0xAbC") (js "alice_tw")
           Demo.with_data
           (js "alice1 now maps to "
              ++ Demo.JSON_stringify
                   (OfNameData (mkName (js "bc1qxy") (js "0xAbC") (js "alice_tw"))))).
  reflexivity.
Defined.

(** The state after [X] replaced the data of [alice1]. *)
Lemma updateNameData_then_viewNameData_witness :
  let st' := (updateNameData Demo.toString Demo.JSON_stringify Demo.registered Demo.X
                (js "alice1") (js " bc1new") (js "0xDeF ") (js "alice_2")).1 in
  viewNameData st' (js "alice1")
    = Ok (mkName (trim (js " bc1new")) (trim (js "0xDeF ")) (trim (js "alice_2"))) /\
  exists msg',
    updateNameData Demo.toString Demo.JSON_stringify st' Demo.X
      (js "alice1") (js " bc1new") (js "0xDeF ") (js "alice_2") = (st', Ok msg').
Proof.
  intros st'.
  apply (updateNameData_then_viewNameData Demo.toString Demo.JSON_stringify
           Demo.registered Demo.X (js "alice1") (js " bc1new") (js "0xDeF ") (js "alice_2")
           st'
           (js "alice1 data has now been updated from {} to "
              ++ Demo.JSON_stringify
                   (OfNameData (mkName (js "bc1new") (js "0xDeF") (js "alice_2"))))).
  reflexivity.
Defined.

Lemma updateNameData_then_setNameData_witness :
  let st' := (updateNameData Demo.toString Demo.JSON_stringify Demo.registered Demo.X
                (js "alice1") (js "bc1new") (js "0xDeF") (js "alice_2")).1 in
  setNameData Demo.toString Demo.JSON_stringify st' Demo.X
    (js "alice1") (js "bc1qxy") (js "0xAbC") (js "alice_tw")
    = (st', Err (Msg.DataAlreadyExists (js "alice1"))).
Proof.
  intros st'.
  apply (updateNameData_then_setNameData Demo.toString Demo.JSON_stringify
           Demo.registered Demo.X (js "alice1") (js "bc1new") (js "0xDeF") (js "alice_2")
           (js "bc1qxy") (js "0xAbC") (js "alice_tw") st'
           (js "alice1 data has now been updated from {} to "
              ++ Demo.JSON_stringify
                   (OfNameData (mkName (js "bc1new") (js "0xDeF") (js "alice_2"))))).
  reflexivity.
Defined.

Lemma viewNameData_Ok_iff_witness :
  viewNameData Demo.with_data (js "alice1")
    = Ok (mkName (js "bc1qxy") (js "0xAbC") (js "alice_tw"))
  <-> records Demo.with_data !! js "alice1"
        = Some (mkName (js "bc1qxy") (js "0xAbC") (js "alice_tw")).
Proof.
  apply (viewNameData_Ok_iff Demo.toString Demo.JSON_stringify Demo.with_data).
  exact Demo_with_data_reachable.
Defined.

Lemma viewAllNames_lists_register_witness :
  NoDup [js "alice1"] /\
  (forall k, k ∈ [js "alice1"] <-> is_Some (register Demo.registered !! k)) /\
  length [js "alice1"] = size (register Demo.registered) /\
  register Demo.registered ≠ ∅.
Proof.
  apply (proj2 (viewAllNames_lists_register Demo.registered) [js "alice1"]).
  reflexivity.
Defined.

Lemma registerName_then_viewAllNames_witness :
  exists keys,
    viewAllNames Demo.registered = Ok keys /\ trim (js " alice1") ∈ keys /\
    length keys = S (size (register (@init Demo.Principal))).
Proof.
  apply (registerName_then_viewAllNames Demo.toString init Demo.X (js " alice1")
           Demo.registered (js "alice1 now maps to 2vxsx-fae")).
  reflexivity.
Defined.

Lemma registerName_then_clearName_witness :
  exists msg',
    clearName Demo.toString Demo.JSON_stringify
      (registerName Demo.toString Demo.with_data Demo.Y (js "bob")).1 Demo.Y (trim (js "bob"))
      = (Demo.with_data, Ok msg').
Proof.
  apply (registerName_then_clearName Demo.toString Demo.JSON_stringify Demo.with_data
           Demo.Y (js "bob") _ (js "bob now maps to aaaaa-aa")).
  - exact Demo_with_data_reachable.
  - reflexivity.
Defined.

Lemma clearName_then_registerName_no_data_witness :
  let st1 := (clearName Demo.toString Demo.JSON_stringify Demo.with_data Demo.X
                (js "alice1")).1 in
  exists st2 msg',
    registerName Demo.toString st1 Demo.Y (js "alice1") = (st2, Ok msg') /\
    records st2 !! js "alice1" = None /\
    viewNameData st2 (js "alice1") = Err (Msg.NoDataAttached (js "alice1")).
Proof.
  intros st1.
  apply (clearName_then_registerName_no_data Demo.toString Demo.JSON_stringify
           Demo.with_data Demo.X Demo.Y (js "alice1") st1
           (js "'alice1' with data: "
              ++ Demo.JSON_stringify
                   (OfRemoved (Some (mkName (js "bc1qxy") (js "0xAbC") (js "alice_tw"))))
              ++ js " has been cleared from storage")).
  - exact Demo_with_data_reachable.
  - reflexivity.
Defined.

Lemma Earlier_setNameData_capped_witness :
  Earlier.setNameData Demo.toString Demo.JSON_stringify Demo.registered Demo.X
    (js "alice1") Demo.long_field (js "0xAbC") (js "alice_tw")
    = (Demo.registered, Err Msg.Invalid_btc).
Proof.
  rewrite (Earlier_setNameData_capped Demo.toString Demo.JSON_stringify Demo.registered
             Demo.X Demo.X (js "alice1") Demo.long_field (js "0xAbC") (js "alice_tw"));
    reflexivity.
Defined.

Lemma Earlier_updateNameData_capped_witness :
  Earlier.updateNameData Demo.toString Demo.JSON_stringify Demo.registered Demo.X
    (js "alice1") (js "bc1qxy") Demo.long_field (js "alice_tw")
    = (Demo.registered, Err Msg.Invalid_eth).
Proof.
  rewrite (Earlier_updateNameData_capped Demo.toString Demo.JSON_stringify Demo.registered
             Demo.X Demo.X (js "alice1") (js "bc1qxy") Demo.long_field (js "alice_tw"));
    reflexivity.
Defined.

Lemma setNameData_success_conditions_witness :
  exists msg,
    setNameData Demo.toString Demo.JSON_stringify Demo.registered Demo.X
      (js "alice1") (js " bc1qxy") (js "0xAbC ") (js "alice_tw") =
      ({| register := register Demo.registered;
          records := <[js "alice1" := mkName (trim (js " bc1qxy")) (trim (js "0xAbC "))
                                        (trim (js "alice_tw"))]>
                       (records Demo.registered) |},
       Ok msg).
Proof.
  apply (proj2 (setNameData_success_conditions Demo.toString Demo.JSON_stringify
                  Demo.registered Demo.X (js "alice1")
                  (js " bc1qxy") (js "0xAbC ") (js "alice_tw"))).
  - exists Demo.X. split; reflexivity.
  - reflexivity.
  - by vm_compute.
  - by vm_compute.
  - by vm_compute.
  - unfold within_value_bound. vm_compute. lia.
Defined.

Lemma updateNameData_success_conditions_witness :
  exists msg,
    updateNameData Demo.toString Demo.JSON_stringify Demo.with_data Demo.X
      (js "alice1") (js " bc1new") (js "0xDeF ") (js "alice_2") =
      ({| register := register Demo.with_data;
          records := <[js "alice1" := mkName (trim (js " bc1new")) (trim (js "0xDeF "))
                                        (trim (js "alice_2"))]>
                       (records Demo.with_data) |},
       Ok msg).
Proof.
  apply (proj2 (updateNameData_success_conditions Demo.toString Demo.JSON_stringify
                  Demo.with_data Demo.X (js "alice1")
                  (js " bc1new") (js "0xDeF ") (js "alice_2"))).
  - exists Demo.X. split; reflexivity.
  - by vm_compute.
  - by vm_compute.
  - by vm_compute.
  - by vm_compute.
  - unfold within_value_bound. vm_compute. lia.
Defined.
